(** * Webhook ingestion service: storage, metrics and the /webhook handler

    A shallow embedding of [app/metrics.py], [app/storage.py],
    [app/models.py] and the request path of [app/main.py], followed by the
    properties of the ingestion / storage / metrics core.

    Conventions.
    - A Python [str] is a Rocq [string]; a character stands for one code
      point in U+0000..U+00FF (what a latin-1 decoded header or an ASCII
      JSON document carries).  Ordering is by code point, which is also the
      order of SQLite's BINARY collation on the UTF-8 encoding.
    - Python [bytes] is [list byte].
    - Python [float] is a binary64 [float] ([PrimFloat]).
    - [None] / SQL NULL is [None : option _].
    - A Python call that may raise returns [result A]. *)

From Stdlib Require Import Floats Uint63 Strings.Byte Ascii String.
From stdpp Require Import gmap strings list sorting pretty.

Set Warnings "-register-all".

Local Open Scope string_scope.
Local Open Scope Z_scope.

(** ** Python values, exceptions and library functions *)

Module Py.

(** One entry of pydantic's [ValidationError.errors()], restricted to the
    three keys the handler forwards. *)
Record ErrorDetails := {
  loc : list string;
  msg : string;
  type_ : string
}.

(** The constraint a failed INSERT violated ([sqlite3.IntegrityError]
    carries it only in its message). *)
Inductive constraint :=
| UniqueMessageId
| NotNull (column : string).

Inductive exn :=
| TypeError
| UnicodeDecodeError
| RecursionError
| JSONDecodeError
| ValidationError (errors : list ErrorDetails)
| IntegrityError (c : constraint)
| OperationalError
| DatabaseError.

Inductive result (A : Type) :=
| Ok (a : A)
| Raise (e : exn).
Arguments Ok {A} a.
Arguments Raise {A} e.

Global Instance result_ret : MRet result := λ A a, Ok a.

Global Instance result_bind : MBind result := λ A B k m,
  match m with
  | Ok a => k a
  | Raise e => Raise e
  end.

Global Instance result_fmap : FMap result := λ A B f m,
  match m with
  | Ok a => Ok (f a)
  | Raise e => Raise e
  end.

(** What [json.loads] returns. A dict keeps one entry per key. *)
Inductive json :=
| JNull
| JBool (b : bool)
| JInt (z : Z)
| JFloat (f : float)
| JStr (s : string)
| JList (l : list json)
| JObj (fields : list (string * json)).

(** Truthiness of an [Optional[str]]: [None] and the empty string are
    falsy. *)
Definition truthy (s : option string) : bool :=
  match s with
  | None => false
  | Some "" => false
  | Some _ => true
  end.

Definition is_ascii_char (c : ascii) : bool :=
  bool_decide (N_of_ascii c < 128)%N.

Fixpoint isascii (s : string) : bool :=
  match s with
  | "" => true
  | String c s' => is_ascii_char c && isascii s'
  end.

(** [str.encode()] (UTF-8) on code points below U+0100. *)
Definition encode_char (c : ascii) : list byte :=
  let n := N_of_ascii c in
  if (n <? 128)%N then [byte_of_ascii c]
  else
    match Byte.of_N (192 + n / 64), Byte.of_N (128 + n mod 64) with
    | Some b1, Some b2 => [b1; b2]
    | _, _ => []
    end.

Fixpoint encode (s : string) : list byte :=
  match s with
  | "" => []
  | String c s' => encode_char c ++ encode s'
  end.

Definition hex_digit (n : N) : ascii :=
  ascii_of_N (if (n <? 10)%N then 48 + n else 87 + n).

(** [bytes.hex()]: two lowercase hexadecimal digits per byte. *)
Fixpoint hex (bs : list byte) : string :=
  match bs with
  | [] => ""
  | b :: bs' =>
      let n := Byte.to_N b in
      String (hex_digit (n / 16)) (String (hex_digit (n mod 16)) (hex bs'))
  end.

(** [hmac.compare_digest] on two [str]: both must be ASCII-only,
    otherwise it raises [TypeError]; on ASCII strings it is equality
    (computed in time independent of the contents). *)
Definition compare_digest (a b : string) : result bool :=
  if isascii a && isascii b then Ok (String.eqb a b) else Raise TypeError.

(** Functions of the Python standard library (and of the interpreter's
    float formatting) that the service calls and whose implementation is
    not part of the repository. *)
Class Library := {
  (** [hmac.new(key, msg, hashlib.sha256).digest()] *)
  hmac_sha256 : list byte → list byte → list byte;
  (** [json.loads(body)] *)
  json_loads : list byte → result json;
  (** does [datetime.fromisoformat(s)] return (rather than raise
      [ValueError])? *)
  fromisoformat_ok : string → bool;
  (** [f"{x:.2f}"] *)
  format_2f : float → string
}.

End Py.
Export Py.

(** ** app/metrics.py *)

Module Metrics.

(** A key of [_latency_buckets]: one of [LATENCY_BUCKETS] or
    [float("inf")]. *)
Inductive bound :=
| Le (b : Z)
| Inf.

Global Instance bound_eq_dec : EqDecision bound.
Proof. solve_decision. Defined.

Global Instance bound_countable : Countable bound.
Proof.
  refine (inj_countable'
    (λ k, match k with Le b => Some b | Inf => None end)
    (λ o, match o with Some b => Le b | None => Inf end) _).
  by intros [].
Defined.

Definition LATENCY_BUCKETS : list Z :=
  [10; 25; 50; 100; 250; 500; 1000; 2500; 5000; 10000].

Record MetricsCollector := {
  _http_requests : gmap (string * Z) nat;
  _webhook_requests : gmap string nat;
  _latency_buckets : gmap bound nat;
  _latency_count : nat;
  _latency_sum : float
}.

(** [__init__] *)
Definition init : MetricsCollector := {|
  _http_requests := ∅;
  _webhook_requests := ∅;
  _latency_buckets :=
    <[Inf := 0%nat]> (list_to_map ((λ b, (Le b, 0%nat)) <$> LATENCY_BUCKETS));
  _latency_count := 0;
  _latency_sum := 0%float
|}.

(** [d[k] += 1] on a [defaultdict(int)]. *)
Definition incr `{Countable K} (k : K) (d : gmap K nat) : gmap K nat :=
  <[k := S (default 0%nat (d !! k))]> d.

(** Reading [d[k]]; the bucket dictionary is created with all its keys and
    never loses one, so the [KeyError] branch of a plain dict is dead. *)
Definition get (k : bound) (d : gmap bound nat) : nat :=
  default 0%nat (d !! k).

Definition inc_http_requests (path : string) (status : Z)
    (m : MetricsCollector) : MetricsCollector :=
  {| _http_requests := incr (path, status) (_http_requests m);
     _webhook_requests := _webhook_requests m;
     _latency_buckets := _latency_buckets m;
     _latency_count := _latency_count m;
     _latency_sum := _latency_sum m |}.

Definition inc_webhook_requests (result : string)
    (m : MetricsCollector) : MetricsCollector :=
  {| _http_requests := _http_requests m;
     _webhook_requests := incr result (_webhook_requests m);
     _latency_buckets := _latency_buckets m;
     _latency_count := _latency_count m;
     _latency_sum := _latency_sum m |}.

(** [latency_ms <= bucket] for a float and one of the integer bounds
    (all exactly representable). *)
Definition float_le_int (x : float) (b : Z) : bool :=
  PrimFloat.leb x (PrimFloat.of_uint63 (Uint63.of_Z b)).

(** The [for bucket in self.LATENCY_BUCKETS] loop of [observe_latency]. *)
Fixpoint bump (latency_ms : float) (buckets : list Z)
    (d : gmap bound nat) : gmap bound nat :=
  match buckets with
  | [] => d
  | b :: rest =>
      bump latency_ms rest
        (if float_le_int latency_ms b then <[Le b := S (get (Le b) d)]> d
         else d)
  end.

Definition observe_latency (latency_ms : float)
    (m : MetricsCollector) : MetricsCollector :=
  let d := bump latency_ms LATENCY_BUCKETS (_latency_buckets m) in
  {| _http_requests := _http_requests m;
     _webhook_requests := _webhook_requests m;
     _latency_buckets := <[Inf := S (get Inf d)]> d;
     _latency_count := S (_latency_count m);
     _latency_sum := PrimFloat.add (_latency_sum m) latency_ms |}.

(** Python's comparison of [((path, status), count)] items; keys are
    distinct, so the count never decides. *)
Definition http_item_le (a b : (string * Z) * nat) : Prop :=
  let '((p1, s1), _) := a in
  let '((p2, s2), _) := b in
  if decide (p1 = p2) then s1 ≤ s2 else String.le p1 p2.

Global Instance http_item_le_dec : RelDecision http_item_le.
Proof. intros [[p1 ?] ?] [[p2 ?] ?]; simpl; destruct (decide (p1 = p2)); apply _. Defined.

Definition webhook_item_le (a b : string * nat) : Prop :=
  String.le a.1 b.1.

Global Instance webhook_item_le_dec : RelDecision webhook_item_le.
Proof. intros ??; unfold webhook_item_le; apply _. Defined.

(** The running [cumulative] of [format_prometheus]: for each bound, in
    order, add the stored bucket value and emit the running total. *)
Fixpoint bucket_samples (cumulative : nat) (buckets : list Z)
    (d : gmap bound nat) : list (Z * nat) :=
  match buckets with
  | [] => []
  | b :: rest =>
      let cumulative := (cumulative + get (Le b) d)%nat in
      (b, cumulative) :: bucket_samples cumulative rest d
  end.

(** The double-quote character of the label syntax. *)
Definition dq : string := String "034" EmptyString.

Definition http_line (item : (string * Z) * nat) : string :=
  let '((path, status), count) := item in
  "http_requests_total{path=" +:+ dq +:+ path +:+ dq +:+ ",status=" +:+
    dq +:+ pretty status +:+ dq +:+ "} " +:+ pretty count.

Definition webhook_line (item : string * nat) : string :=
  "webhook_requests_total{result=" +:+ dq +:+ item.1 +:+ dq +:+ "} " +:+
    pretty item.2.

Definition bucket_line (sample : Z * nat) : string :=
  "request_latency_ms_bucket{le=" +:+ dq +:+ pretty sample.1 +:+ dq +:+
    "} " +:+ pretty sample.2.

Definition inf_line (m : MetricsCollector) : string :=
  "request_latency_ms_bucket{le=" +:+ dq +:+ "+Inf" +:+ dq +:+ "} " +:+
    pretty (get Inf (_latency_buckets m)).

Definition count_line (m : MetricsCollector) : string :=
  "request_latency_ms_count " +:+ pretty (_latency_count m).

Section WithLibrary.
Context `{Library}.

Definition format_prometheus_lines (m : MetricsCollector) : list string :=
  [ "# HELP http_requests_total Total HTTP requests";
    "# TYPE http_requests_total counter" ] ++
  (http_line <$> merge_sort http_item_le (map_to_list (_http_requests m))) ++
  [ "";
    "# HELP webhook_requests_total Total webhook requests by result";
    "# TYPE webhook_requests_total counter" ] ++
  (webhook_line <$>
     merge_sort webhook_item_le (map_to_list (_webhook_requests m))) ++
  [ "";
    "# HELP request_latency_ms Request latency in milliseconds";
    "# TYPE request_latency_ms histogram" ] ++
  (bucket_line <$> bucket_samples 0 LATENCY_BUCKETS (_latency_buckets m)) ++
  [ inf_line m;
    count_line m;
    "request_latency_ms_sum " +:+ format_2f (_latency_sum m) ].

Definition format_prometheus (m : MetricsCollector) : string :=
  String.concat (String "010" "") (format_prometheus_lines m).

End WithLibrary.

End Metrics.

(** ** app/models.py *)

Module Models.

Record WebhookMessage := {
  message_id : string;
  from_ : string;
  to : string;
  ts : string;
  text : option string
}.

(** One position of a regular expression: [\d] or a literal character.
    On code points below U+0100 the decimal digits are 0-9; the digits of
    other scripts, which [\d] matches as well, are not among the
    characters of this development. *)
Inductive atom :=
| Digit
| Lit (c : ascii).

Definition is_digit (c : ascii) : bool :=
  bool_decide (48 ≤ N_of_ascii c ≤ 57)%N.

Definition atom_match (a : atom) (c : ascii) : bool :=
  match a with
  | Digit => is_digit c
  | Lit l => bool_decide (c = l)
  end.

(** Match a sequence of atoms at the start of [s]; the rest of [s]. *)
Fixpoint match_atoms (p : list atom) (s : string) : option string :=
  match p, s with
  | [], _ => Some s
  | a :: p', String c s' =>
      if atom_match a c then match_atoms p' s' else None
  | _ :: _, "" => None
  end.

Definition newline : ascii := "010".

(** [$] without [re.MULTILINE]: at the end of the string, or just before
    a newline that ends the string. *)
Definition at_end (s : string) : bool :=
  bool_decide (s = "") || bool_decide (s = String newline "").

(** [\d*$] *)
Fixpoint digits_to_end (s : string) : bool :=
  match s with
  | "" => true
  | String c s' => if is_digit c then digits_to_end s' else at_end s
  end.

(** [E164_PATTERN.match(v)] for [^\+\d+$] *)
Definition E164_PATTERN (v : string) : bool :=
  match match_atoms [Lit "+"; Digit] v with
  | Some rest => digits_to_end rest
  | None => false
  end.

(** [ISO8601_UTC_PATTERN.match(v)] for
    [^\d{4}-\d{2}-\d{2}T\d{2}:\d{2}:\d{2}Z$] *)
Definition ISO8601_UTC_PATTERN (v : string) : bool :=
  match match_atoms
          [Digit; Digit; Digit; Digit; Lit "-"; Digit; Digit; Lit "-";
           Digit; Digit; Lit "T"; Digit; Digit; Lit ":"; Digit; Digit;
           Lit ":"; Digit; Digit; Lit "Z"] v with
  | Some rest => at_end rest
  | None => false
  end.

(** [v.replace("Z", "+00:00")] *)
Fixpoint replace_Z (v : string) : string :=
  match v with
  | "" => ""
  | String c v' =>
      if bool_decide (c = "Z"%char) then "+00:00" +:+ replace_Z v'
      else String c (replace_Z v')
  end.

(** A field validator either returns the value or raises [ValueError]
    with a message. *)
Definition validate_e164 (field_name : string) (v : string) : string + string :=
  if negb (E164_PATTERN v) then
    inl ((if bool_decide (field_name = "from_") then "from" else field_name)
         +:+ " must be in E.164 format (start with +, then digits only)")
  else inr v.

Section WithLibrary.
Context `{Library}.

Definition validate_iso8601_utc (v : string) : string + string :=
  if negb (ISO8601_UTC_PATTERN v) then
    inl "ts must be ISO-8601 UTC format with Z suffix (e.g., 2025-01-15T10:00:00Z)"
  else if negb (fromisoformat_ok (replace_Z v)) then
    inl "ts must be a valid datetime"
  else inr v.

(** *** What pydantic does with the declarations of [WebhookMessage] *)

Fixpoint lookup_key (k : string) (fields : list (string * json)) : option json :=
  match fields with
  | [] => None
  | (k', v) :: rest => if bool_decide (k' = k) then Some v else lookup_key k rest
  end.

Definition error (loc type_ msg : string) : ErrorDetails :=
  {| Py.loc := [loc]; Py.msg := msg; Py.type_ := type_ |}.

(** A required [str] field. *)
Definition required_str (loc : string) (v : option json) : ErrorDetails + string :=
  match v with
  | None => inl (error loc "missing" "Field required")
  | Some (JStr s) => inr s
  | Some _ => inl (error loc "string_type" "Input should be a valid string")
  end.

(** An after-validator: a [ValueError] becomes a [value_error] entry. *)
Definition after (loc : string) (f : string → string + string)
    (r : ErrorDetails + string) : ErrorDetails + string :=
  match r with
  | inl e => inl e
  | inr s =>
      match f s with
      | inl m => inl (error loc "value_error" ("Value error, " +:+ m))
      | inr s' => inr s'
      end
  end.

Definition field_message_id (fields : list (string * json)) : ErrorDetails + string :=
  match required_str "message_id" (lookup_key "message_id" fields) with
  | inr "" => inl (error "message_id" "string_too_short"
                     "String should have at least 1 character")
  | r => r
  end.

(** [from_] has alias [from]; with [populate_by_name] the alias is
    looked up first, then the field name, and an error is located at the
    key that supplied the value (at the alias when neither is there). *)
Definition field_from (fields : list (string * json)) : ErrorDetails + string :=
  match lookup_key "from" fields, lookup_key "from_" fields with
  | Some v, _ => after "from" (validate_e164 "from_") (required_str "from" (Some v))
  | None, Some v => after "from_" (validate_e164 "from_") (required_str "from_" (Some v))
  | None, None => required_str "from" None
  end.

Definition field_to (fields : list (string * json)) : ErrorDetails + string :=
  after "to" (validate_e164 "to") (required_str "to" (lookup_key "to" fields)).

Definition field_ts (fields : list (string * json)) : ErrorDetails + string :=
  after "ts" validate_iso8601_utc (required_str "ts" (lookup_key "ts" fields)).

Definition field_text (fields : list (string * json)) : ErrorDetails + option string :=
  match lookup_key "text" fields with
  | None | Some JNull => inr None
  | Some (JStr s) =>
      if bool_decide (String.length s ≤ 4096)%nat then inr (Some s)
      else inl (error "text" "string_too_long"
                  "String should have at most 4096 characters")
  | Some _ => inl (error "text" "string_type" "Input should be a valid string")
  end.

Definition errors_of {A} (r : ErrorDetails + A) : list ErrorDetails :=
  match r with
  | inl e => [e]
  | inr _ => []
  end.

(** [WebhookMessage] called on [**payload]: unpacking anything but a
    dict raises [TypeError]; a dict is validated field by field, all
    errors collected in declaration order. *)
Definition WebhookMessage_new (payload : json) : result WebhookMessage :=
  match payload with
  | JObj fields =>
      let r1 := field_message_id fields in
      let r2 := field_from fields in
      let r3 := field_to fields in
      let r4 := field_ts fields in
      let r5 := field_text fields in
      match r1, r2, r3, r4, r5 with
      | inr i, inr f, inr t, inr s, inr x =>
          Ok {| message_id := i; from_ := f; to := t; ts := s; text := x |}
      | _, _, _, _, _ =>
          Raise (ValidationError
                   (errors_of r1 ++ errors_of r2 ++ errors_of r3 ++
                    errors_of r4 ++ errors_of r5)%list)
      end
  | _ => Raise TypeError
  end.

End WithLibrary.

End Models.

(** ** app/storage.py *)

Module Storage.

(** A row of table [messages].  [message_id] is declared
    [TEXT PRIMARY KEY] without [NOT NULL]: in a rowid table SQLite lets
    such a column hold NULL (and NULLs never collide); the columns
    declared [NOT NULL] are plain strings. *)
Record Row := {
  message_id : option string;
  from_msisdn : string;
  to_msisdn : string;
  ts : string;
  text : option string;
  created_at : string
}.

(** Why a statement cannot run at all. *)
Inductive fault :=
| Operational   (* sqlite3.OperationalError: cannot open, no such table, locked *)
| Corrupt.      (* sqlite3.DatabaseError: not a database, malformed image *)

Definition fault_exn (f : fault) : exn :=
  match f with
  | Operational => OperationalError
  | Corrupt => DatabaseError
  end.

(** The database file behind [db_path]: unusable, or table [messages]
    with its rows in rowid order. *)
Inductive Database :=
| Broken (f : fault)
| Ready (rows : list Row).

(** [init_db] on a reachable, empty file. *)
Definition init_db : Database := Ready [].

Definition is_ready (db : Database) : bool :=
  match db with
  | Broken _ => false
  | Ready _ => true
  end.

(** *** INSERT *)

Definition has_id (i : string) (rows : list Row) : bool :=
  bool_decide (Some i ∈ message_id <$> rows).

(** [INSERT INTO messages (...) VALUES (?, ?, ?, ?, ?, ?)]: the NOT NULL
    constraints are tested first, then the uniqueness of the key. *)
Definition execute_insert (rows : list Row)
    (message_id from_msisdn to_msisdn ts text : option string)
    (created_at : string) : result (list Row) :=
  match from_msisdn, to_msisdn, ts with
  | None, _, _ => Raise (IntegrityError (NotNull "from_msisdn"))
  | Some _, None, _ => Raise (IntegrityError (NotNull "to_msisdn"))
  | Some _, Some _, None => Raise (IntegrityError (NotNull "ts"))
  | Some f, Some t, Some s =>
      if match message_id with Some i => has_id i rows | None => false end
      then Raise (IntegrityError UniqueMessageId)
      else Ok (rows ++ [{| message_id := message_id; from_msisdn := f;
                           to_msisdn := t; ts := s; text := text;
                           created_at := created_at |}])%list
  end.

(** [insert_message]; [created_at] is the formatted reading of
    [datetime.now(timezone.utc)].  A failed statement changes nothing,
    so the commit after the caught [IntegrityError] and the rollback after
    any other exception both leave the rows as they were. *)
Definition insert_message (db : Database)
    (message_id from_msisdn to_msisdn ts text : option string)
    (created_at : string) : result (bool * bool) * Database :=
  match db with
  | Broken f => (Raise (fault_exn f), db)
  | Ready rows =>
      match execute_insert rows message_id from_msisdn to_msisdn ts text
              created_at with
      | Ok rows' => (Ok (true, false), Ready rows')
      | Raise (IntegrityError _) => (Ok (true, true), db)
      | Raise e => (Raise e, db)
      end
  end.

(** *** SELECT *)

Definition tolower (c : ascii) : ascii :=
  let n := N_of_ascii c in
  if bool_decide (65 ≤ n ≤ 90)%N then ascii_of_N (n + 32) else c.

(** SQLite's [LIKE] (no ESCAPE): [%] matches any run of characters, [_]
    any one character, and any other character itself, ASCII letters
    without regard to case.  This is LIKE on operands without U+0000 (SQLite
    reads each operand up to its first U+0000) and for a pattern of at most
    50000 bytes (a longer one is refused with [OperationalError]). *)
Fixpoint like (pattern : string) : string → bool :=
  match pattern with
  | "" => λ t, bool_decide (t = "")
  | String c p' =>
      if bool_decide (c = "%"%char) then
        fix any (t : string) : bool :=
          like p' t ||
          match t with
          | "" => false
          | String _ t' => any t'
          end
      else λ t,
        match t with
        | "" => false
        | String d t' =>
            (bool_decide (c = "_"%char) ||
             bool_decide (tolower c = tolower d)) && like p' t'
        end
  end.

(** [if param: conditions.append(...); params.append(...)] *)
Definition when (param : option string) (cond : string → Row → bool)
    : list (Row → bool) :=
  match param with
  | Some v => if truthy param then [cond v] else []
  | None => []
  end.

(** The conditions [get_messages] collects, each bound to its parameter:
    [from_msisdn = ?], [ts >= ?], [text LIKE ?] with [f"%{q}%"].  A NULL
    [text] makes the LIKE NULL, which selects nothing. *)
Definition conditions (from_filter since q : option string) : list (Row → bool) :=
  (when from_filter (λ f r, bool_decide (from_msisdn r = f)) ++
   when since (λ s r, String.leb s (ts r)) ++
   when q (λ x r, match text r with
                  | Some t => like ("%" +:+ x +:+ "%") t
                  | None => false
                  end))%list.

(** [WHERE c1 AND c2 ...], or no WHERE clause for no condition. *)
Definition where_clause (conds : list (Row → bool)) (r : Row) : bool :=
  forallb (λ c, c r) conds.

(** Ascending order of a nullable TEXT column: NULL first. *)
Definition id_le (a b : option string) : Prop :=
  match a, b with
  | None, _ => True
  | Some _, None => False
  | Some x, Some y => String.le x y
  end.

Global Instance id_le_dec : RelDecision id_le.
Proof. intros [x|] [y|]; simpl; apply _. Defined.

(** [ORDER BY ts ASC, message_id ASC] *)
Definition order_by (r1 r2 : Row) : Prop :=
  if decide (ts r1 = ts r2) then id_le (message_id r1) (message_id r2)
  else String.le (ts r1) (ts r2).

Global Instance order_by_dec : RelDecision order_by.
Proof.
  intros r1 r2; unfold order_by; destruct (decide (ts r1 = ts r2)); apply _.
Defined.

(** [LIMIT ? OFFSET ?]: a negative limit is no limit, a negative offset
    is 0.  This is for integers in the signed 64-bit range; sqlite3 refuses
    to bind others ([OverflowError]). *)
Definition limit_offset {A} (limit offset : Z) (l : list A) : list A :=
  let l' := drop (Z.to_nat offset) l in
  if bool_decide (limit < 0) then l' else take (Z.to_nat limit) l'.

(** The dict built from a selected row. *)
Definition to_dict (r : Row) : gmap string (option string) :=
  <["message_id" := message_id r]>
    (<["from_" := Some (from_msisdn r)]>
      (<["to" := Some (to_msisdn r)]>
        (<["ts" := Some (ts r)]>
          (<["text" := text r]> ∅)))).

(** [get_messages], for parameters within the limits of SQLite noted at
    [like] and [limit_offset]; rows that tie in the ORDER BY (equal [ts],
    NULL [message_id]) come in the order of the sort used here. *)
Definition get_messages (db : Database) (limit offset : Z)
    (from_filter since q : option string)
    : result (list (gmap string (option string)) * nat) :=
  match db with
  | Broken f => Raise (fault_exn f)
  | Ready rows =>
      let conds := conditions from_filter since q in
      let total := length (filter (λ r, where_clause conds r) rows) in
      let rows :=
        limit_offset limit offset
          (merge_sort order_by (filter (λ r, where_clause conds r) rows)) in
      Ok (to_dict <$> rows, total)
  end.

(** *** Statistics *)

Record SenderCount := {
  from_ : string;
  count : nat
}.

Record Stats := {
  total_messages : nat;
  senders_count : nat;
  messages_per_sender : list SenderCount;
  first_message_ts : option string;
  last_message_ts : option string
}.

(** The distinct values of [from_msisdn]. *)
Definition senders (rows : list Row) : list string :=
  remove_dups (from_msisdn <$> rows).

(** [GROUP BY from_msisdn] with [COUNT( * )]; groups come out in key
    order. *)
Definition group_by_sender (rows : list Row) : list SenderCount :=
  (λ s, {| from_ := s;
           count := length (filter (λ r, from_msisdn r = s) rows) |})
    <$> merge_sort String.le (senders rows).

(** [ORDER BY count DESC]; SQL leaves the order among equal counts open,
    the sort used here fixes one. *)
Definition count_desc (a b : SenderCount) : Prop := (count b ≤ count a)%nat.

Global Instance count_desc_dec : RelDecision count_desc.
Proof. intros a b; unfold count_desc; apply _. Defined.

Definition str_min (a b : string) : string := if String.leb a b then a else b.
Definition str_max (a b : string) : string := if String.leb a b then b else a.

(** [MIN(ts)] / [MAX(ts)]: NULL over no row. *)
Definition aggregate (f : string → string → string) (l : list string) : option string :=
  match l with
  | [] => None
  | x :: l' => Some (foldl f x l')
  end.

Definition get_stats (db : Database) : result Stats :=
  match db with
  | Broken f => Raise (fault_exn f)
  | Ready rows =>
      Ok {| total_messages := length rows;
            senders_count := length (senders rows);
            messages_per_sender :=
              take 10 (merge_sort count_desc (group_by_sender rows));
            first_message_ts := aggregate str_min (ts <$> rows);
            last_message_ts := aggregate str_max (ts <$> rows) |}
  end.

End Storage.

(** ** app/main.py: the middleware and POST /webhook

    [log_request] and [log_error] hand a record to the logging package,
    which swallows its own failures; they touch neither the store nor the
    metrics and are left out, together with the clock readings that only
    feed them. *)

Module Main.

Record Settings := {
  webhook_secret : option string
}.

Record Request := {
  path : string;
  body : list byte;
  x_signature : option string
}.

Record Response := {
  status_code : Z;
  content : json;
  headers : list (string * string)
}.

(** The process-wide singletons behind [get_metrics()] and
    [get_storage()]. *)
Record App := {
  metrics : Metrics.MetricsCollector;
  storage : Storage.Database
}.

(** What one request reads from the outside world: the uuid prefix, the
    two [time.time()] readings of the middleware and the formatted
    [datetime.now] of the insert. *)
Record Env := {
  request_id : string;
  start_time : float;
  end_time : float;
  utcnow : string
}.

Definition JSONResponse (status_code : Z) (content : json) : Response :=
  {| status_code := status_code; content := content; headers := [] |}.

Definition detail (d : json) : json := JObj [("detail", d)].

(** [WebhookResponse(status="ok")] as FastAPI sends it. *)
Definition WebhookResponse_ok : Response :=
  JSONResponse 200 (JObj [("status", JStr "ok")]).

(** [metrics.inc_webhook_requests(result)] on the shared collector. *)
Definition inc_webhook_requests (result : string) (app : App) : App :=
  {| metrics := Metrics.inc_webhook_requests result (metrics app);
     storage := storage app |}.

Definition error_json (e : ErrorDetails) : json :=
  JObj [("loc", JList (JStr <$> loc e)); ("msg", JStr (msg e));
        ("type", JStr (type_ e))].

Section WithLibrary.
Context `{Library}.

Definition verify_signature (body : list byte) (signature secret : string)
    : result bool :=
  let expected := hex (hmac_sha256 (encode secret) body) in
  compare_digest expected signature.

(** [not x_signature or not verify_signature(...)], left to right. *)
Definition signature_rejected (body : list byte)
    (x_signature : option string) (secret : string) : result bool :=
  match x_signature with
  | Some signature =>
      if negb (truthy x_signature) then Ok true
      else negb <$> verify_signature body signature secret
  | None => Ok true
  end.

(** [payload = json.loads(body); message = WebhookMessage( **payload )] *)
Definition parse (body : list byte) : result Models.WebhookMessage :=
  json_loads body ≫= Models.WebhookMessage_new.

(** The body of the handler's outer [try]: a response, or the exception
    that reaches [except Exception], with the state at that point. *)
Definition webhook_try (settings : Settings) (req : Request) (env : Env)
    (app : App) : result Response * App :=
  match webhook_secret settings with
  | Some secret =>
      if negb (truthy (webhook_secret settings)) then
        (Ok (JSONResponse 503 (detail (JStr "server not ready"))),
         inc_webhook_requests "server_error" app)
      else
        match signature_rejected (body req) (x_signature req) secret with
        | Raise e => (Raise e, app)
        | Ok true =>
            (Ok (JSONResponse 401 (detail (JStr "invalid signature"))),
             inc_webhook_requests "invalid_signature" app)
        | Ok false =>
            match parse (body req) with
            | Raise JSONDecodeError =>
                (Ok (JSONResponse 422 (detail (JStr "Invalid JSON"))),
                 inc_webhook_requests "validation_error" app)
            | Raise (ValidationError errors) =>
                (Ok (JSONResponse 422
                       (detail (JList (error_json <$> errors)))),
                 inc_webhook_requests "validation_error" app)
            | Raise e => (Raise e, app)
            | Ok message =>
                match Storage.insert_message (storage app)
                        (Some (Models.message_id message))
                        (Some (Models.from_ message))
                        (Some (Models.to message))
                        (Some (Models.ts message))
                        (Models.text message)
                        (utcnow env) with
                | (Raise e, db) =>
                    (Raise e, {| metrics := metrics app; storage := db |})
                | (Ok (success, is_dup), db) =>
                    let result := if is_dup then "duplicate" else "created" in
                    (Ok WebhookResponse_ok,
                     inc_webhook_requests result
                       {| metrics := metrics app; storage := db |})
                end
            end
        end
  | None =>
      (Ok (JSONResponse 503 (detail (JStr "server not ready"))),
       inc_webhook_requests "server_error" app)
  end.

(** [webhook]: the [try] above and its [except Exception] clause. *)
Definition webhook (settings : Settings) (req : Request) (env : Env)
    (app : App) : Response * App :=
  match webhook_try settings req env app with
  | (Ok response, app') => (response, app')
  | (Raise e, app') =>
      (JSONResponse 500 (detail (JStr "internal server error")),
       inc_webhook_requests "server_error" app')
  end.

(** [logging_middleware] around a route handler [call_next]. *)
Definition logging_middleware (call_next : App → Response * App)
    (req : Request) (env : Env) (app : App) : Response * App :=
  let '(response, app) := call_next app in
  let latency_ms :=
    PrimFloat.mul (PrimFloat.sub (end_time env) (start_time env)) 1000 in
  let m := Metrics.inc_http_requests (path req) (status_code response)
             (metrics app) in
  let m := Metrics.observe_latency latency_ms m in
  ({| status_code := status_code response;
      content := content response;
      headers := (headers response ++ [("X-Request-ID", request_id env)])%list |},
   {| metrics := m; storage := storage app |}).

(** One POST /webhook request through the middleware. *)
Definition post_webhook (settings : Settings) (req : Request) (env : Env)
    (app : App) : Response * App :=
  logging_middleware (webhook settings req env) req env app.

End WithLibrary.

End Main.

(** ** app/config.py *)

Module Config.

(** [s[n:]] *)
Fixpoint slice_from (n : nat) (s : string) : string :=
  match n, s with
  | O, _ => s
  | S n', String _ s' => slice_from n' s'
  | S _, "" => ""
  end.

(** [Settings.db_path], a property of [database_url]. *)
Definition db_path (database_url : string) : string :=
  let url := database_url in
  if String.prefix "sqlite:///" url then slice_from 10 url else url.

(** [Settings.is_ready]: [bool(self.webhook_secret)]. *)
Definition is_ready (settings : Main.Settings) : bool :=
  truthy (Main.webhook_secret settings).

End Config.

(** ** app/models.py: the response models of GET /messages *)

Module Responses.

Record MessageOut := {
  message_id : string;
  from_ : string;
  to : string;
  ts : string;
  text : option string
}.

Record MessagesListResponse := {
  data : list MessageOut;
  total : nat;
  limit : Z;
  offset : Z
}.

(** A required [str] keyword argument taken from a dict of nullable
    strings: absent is [missing], [None] is not a string. *)
Definition required_str (loc : string) (v : option (option string))
    : ErrorDetails + string :=
  match v with
  | None => inl (Models.error loc "missing" "Field required")
  | Some None => inl (Models.error loc "string_type" "Input should be a valid string")
  | Some (Some s) => inr s
  end.

(** [MessageOut] called on [**m] for a dict [m] of nullable strings; the
    fields are validated by name, [text] may be absent or [None]. *)
Definition MessageOut_new (m : gmap string (option string)) : result MessageOut :=
  let r1 := required_str "message_id" (m !! "message_id") in
  let r2 := required_str "from_" (m !! "from_") in
  let r3 := required_str "to" (m !! "to") in
  let r4 := required_str "ts" (m !! "ts") in
  match r1, r2, r3, r4 with
  | inr i, inr f, inr t, inr s =>
      Ok {| message_id := i; from_ := f; to := t; ts := s;
            text := mjoin (m !! "text") |}
  | _, _, _, _ =>
      Raise (ValidationError
               (Models.errors_of r1 ++ Models.errors_of r2 ++
                Models.errors_of r3 ++ Models.errors_of r4)%list)
  end.

End Responses.

(** ** app/main.py: GET /messages and the health probes *)

Module Routes.

(** What the framework does with a route: the declared parameter bounds
    fail (422 before the handler runs), the handler returns, or it
    raises (500). *)
Inductive reply (A : Type) :=
| Rejected422
| Returned (a : A)
| Raised (e : exn).
Arguments Rejected422 {A}.
Arguments Returned {A} a.
Arguments Raised {A} e.

(** [get_messages]: [limit] is declared [Query(default=50, ge=1, le=100)],
    [offset] is [Query(default=0, ge=0)]; an absent parameter is [None].
    The call of the store is within the limits noted at
    [Storage.get_messages]: an offset below 2^63 and a [q] whose pattern has
    at most 50000 bytes. *)
Definition get_messages (app : Main.App) (limit offset : option Z)
    (from_ since q : option string) : reply Responses.MessagesListResponse :=
  let limit := default 50 limit in
  let offset := default 0 offset in
  if negb (bool_decide (1 ≤ limit ≤ 100)) || negb (bool_decide (0 ≤ offset))
  then Rejected422
  else
    match Storage.get_messages (Main.storage app) limit offset from_ since q with
    | Raise e => Raised e
    | Ok (messages, total) =>
        match mapM Responses.MessageOut_new messages with
        | Raise e => Raised e
        | Ok data =>
            Returned {| Responses.data := data; Responses.total := total;
                        Responses.limit := limit; Responses.offset := offset |}
        end
    end.

(** [health_live] *)
Definition health_live : Main.Response :=
  Main.JSONResponse 200 (JObj [("status", JStr "ok")]).

(** [health_ready] *)
Definition health_ready (settings : Main.Settings) (app : Main.App)
    : Main.Response :=
  if negb (Config.is_ready settings) then
    Main.JSONResponse 503
      (JObj [("status", JStr "not ready"); ("reason", JStr "WEBHOOK_SECRET not set")])
  else if negb (Storage.is_ready (Main.storage app)) then
    Main.JSONResponse 503
      (JObj [("status", JStr "not ready"); ("reason", JStr "database not ready")])
  else Main.JSONResponse 200 (JObj [("status", JStr "ok")]).

End Routes.

(** ** Notions used in the statements *)

(** A run of latency observations, oldest first. *)
Definition observe_all (obs : list float) (m : Metrics.MetricsCollector)
    : Metrics.MetricsCollector :=
  foldl (λ m x, Metrics.observe_latency x m) m obs.

(** The counts printed on the finite [le] lines, in output order, and the
    count printed on the [+Inf] line. *)
Definition finite_line_counts (m : Metrics.MetricsCollector) : list nat :=
  (Metrics.bucket_samples 0 Metrics.LATENCY_BUCKETS (Metrics._latency_buckets m)).*2.

Definition inf_line_count (m : Metrics.MetricsCollector) : nat :=
  Metrics.get Metrics.Inf (Metrics._latency_buckets m).

(** The rows that carry a given [message_id]. *)
Definition rows_with_id (i : string) (rows : list Storage.Row) : list Storage.Row :=
  filter (λ r, Storage.message_id r = Some i) rows.

(** The primary key: no two rows share a non-NULL [message_id]. *)
Definition pk_unique (rows : list Storage.Row) : Prop :=
  NoDup (omap Storage.message_id rows).

(** [a] stands strictly before [b] in the order of the query. *)
Definition strictly_before (a b : Storage.Row) : Prop :=
  (String.le (Storage.ts a) (Storage.ts b) ∧ Storage.ts a ≠ Storage.ts b) ∨
  (Storage.ts a = Storage.ts b ∧
   Storage.id_le (Storage.message_id a) (Storage.message_id b) ∧
   Storage.message_id a ≠ Storage.message_id b).

(** The number of rows of one sender. *)
Definition count_from (rows : list Storage.Row) (s : string) : nat :=
  length (filter (λ r, Storage.from_msisdn r = s) rows).

(** Four messages with timestamps T1 < T2 = T2' < T3, and a table that
    received them out of order. *)
Definition sample_row (i s x c : string) : Storage.Row :=
  {| Storage.message_id := Some i;
     Storage.from_msisdn := "+919876543210";
     Storage.to_msisdn := "+14155550100";
     Storage.ts := s;
     Storage.text := Some x;
     Storage.created_at := c |}.

Definition row_m1 : Storage.Row :=
  sample_row "m1" "2025-01-15T10:00:00Z" "First" "2025-01-16T00:00:01Z".
Definition row_m2a : Storage.Row :=
  sample_row "m2a" "2025-01-15T11:00:00Z" "Second A" "2025-01-16T00:00:03Z".
Definition row_m2b : Storage.Row :=
  sample_row "m2b" "2025-01-15T11:00:00Z" "Second B" "2025-01-16T00:00:02Z".
Definition row_m3 : Storage.Row :=
  sample_row "m3" "2025-01-15T12:00:00Z" "Third" "2025-01-16T00:00:00Z".

Definition sample_rows : list Storage.Row := [row_m3; row_m1; row_m2b; row_m2a].

(** A stored message as the tests of the repository create them. *)
Definition stored (i f s : string) (x : option string) : Storage.Row :=
  {| Storage.message_id := Some i;
     Storage.from_msisdn := f;
     Storage.to_msisdn := "+14155550100";
     Storage.ts := s;
     Storage.text := x;
     Storage.created_at := "2025-01-16T00:00:00Z" |}.

(** [sum(s["count"] for s in messages_per_sender)] *)
Definition sum_counts (l : list Storage.SenderCount) : nat :=
  sum_list_with Storage.count l.

(** A table of eleven messages from eleven senders. *)
Definition eleven_senders : list Storage.Row :=
  (λ n : nat,
     {| Storage.message_id := Some ("m" +:+ pretty n);
        Storage.from_msisdn := "+91987654" +:+ pretty n;
        Storage.to_msisdn := "+14155550100";
        Storage.ts := "2025-01-15T10:00:00Z";
        Storage.text := None;
        Storage.created_at := "2025-01-16T00:00:00Z" |}) <$> seq 10 11.

(** The sort key of a returned dict. *)
Definition dict_ts (d : gmap string (option string)) : string :=
  default "" (mjoin (d !! "ts")).

Definition dict_id (d : gmap string (option string)) : option string :=
  mjoin (d !! "message_id").

(** The [message_id]s of a page and its total. *)
Definition ids_and_total
    (r : result (list (gmap string (option string)) * nat))
    : result (list (option string) * nat) :=
  (λ p : list (gmap string (option string)) * nat,
     (dict_id <$> p.1, p.2)) <$> r.

(** [d1] may stand before [d2] in a page ordered by timestamp, then by
    [message_id]. *)
Definition page_order (d1 d2 : gmap string (option string)) : Prop :=
  if decide (dict_ts d1 = dict_ts d2) then Storage.id_le (dict_id d1) (dict_id d2)
  else String.le (dict_ts d1) (dict_ts d2).

(** The latency the middleware observes for a request. *)
Definition latency_ms (env : Main.Env) : float :=
  PrimFloat.mul (PrimFloat.sub (Main.end_time env) (Main.start_time env)) 1000.

(** The outcome labels of POST /webhook with the status each comes with. *)
Definition outcomes : list (Z * string) :=
  [ (503, "server_error"); (401, "invalid_signature");
    (422, "validation_error"); (200, "created"); (200, "duplicate");
    (500, "server_error") ].

(** A stand-in for the library, to run the handler on examples: the digest
    is the key followed by the message, the parser knows two documents
    (the same [message_id], different other fields), every well-shaped
    timestamp is a date. *)
Definition sample_payload (from_ text : string) : json :=
  JObj [("message_id", JStr "m1"); ("from", JStr from_); ("to", JStr "+1666");
        ("ts", JStr "2025-01-15T10:00:00Z"); ("text", JStr text)].

Definition sample_library : Library := {|
  hmac_sha256 key msg := (key ++ msg)%list;
  json_loads body :=
    if String.eqb (hex body) (hex (encode "first")) then
      Ok (sample_payload "+1555" "hello")
    else if String.eqb (hex body) (hex (encode "second")) then
      Ok (sample_payload "+1999" "hello again")
    else Raise JSONDecodeError;
  fromisoformat_ok _ := true;
  format_2f _ := "0.00"
|}.

Definition sample_settings : Main.Settings :=
  {| Main.webhook_secret := Some "s" |}.

(** A request whose signature is the digest of its body under ["s"]. *)
Definition signed_request (document : string) : Main.Request :=
  {| Main.path := "/webhook";
     Main.body := encode document;
     Main.x_signature :=
       Some (hex (@hmac_sha256 sample_library (encode "s") (encode document))) |}.

Definition sample_env (request_id utcnow : string) : Main.Env :=
  {| Main.request_id := request_id;
     Main.start_time := 1000%float;
     Main.end_time := 1000.25%float;
     Main.utcnow := utcnow |}.

Definition fresh_app : Main.App :=
  {| Main.metrics := Metrics.init; Main.storage := Storage.init_db |}.

(** [q in t]: [q] occurs in [t] as a substring, character for character. *)
Fixpoint contains (q t : string) : bool :=
  String.prefix q t ||
  match t with
  | "" => false
  | String _ t' => contains q t'
  end.

(** The filter of a query as a predicate on rows. *)
Definition satisfies (from_filter since q : option string) (r : Storage.Row) : Prop :=
  (∀ f, from_filter = Some f → f ≠ "" → Storage.from_msisdn r = f) ∧
  (∀ s, since = Some s → s ≠ "" → String.le s (Storage.ts r)) ∧
  (∀ x, q = Some x → x ≠ "" →
     ∃ t, Storage.text r = Some t ∧ Storage.like ("%" +:+ x +:+ "%") t = true).

(** *** Notions for the further properties *)

(** One call on the collector. *)
Inductive metric_op :=
| IncHttp (path : string) (status : Z)
| IncWebhook (result : string)
| ObserveLatency (latency_ms : float).

Definition apply_op (m : Metrics.MetricsCollector) (o : metric_op)
    : Metrics.MetricsCollector :=
  match o with
  | IncHttp path status => Metrics.inc_http_requests path status m
  | IncWebhook result => Metrics.inc_webhook_requests result m
  | ObserveLatency x => Metrics.observe_latency x m
  end.

(** The calls of [ops], serialised in list order (as the lock does). *)
Definition run_ops (ops : list metric_op) (m : Metrics.MetricsCollector)
    : Metrics.MetricsCollector :=
  foldl apply_op m ops.

Definition is_inc_http (path : string) (status : Z) (o : metric_op) : bool :=
  match o with
  | IncHttp p s => bool_decide (p = path ∧ s = status)
  | _ => false
  end.

Definition is_inc_webhook (result : string) (o : metric_op) : bool :=
  match o with
  | IncWebhook r => bool_decide (r = result)
  | _ => false
  end.

Definition is_observe (o : metric_op) : bool :=
  match o with
  | ObserveLatency _ => true
  | _ => false
  end.

(** How many elements of a list pass a test. *)
Definition count_if {A} (f : A → bool) (l : list A) : nat :=
  length (filter (λ x, f x) l).

(** The value a [defaultdict(int)] shows for a key. *)
Definition counter `{Countable K} (d : gmap K nat) (k : K) : nat :=
  default 0%nat (d !! k).

(** The sum of all values of a counter dict. *)
Definition sum_values `{Countable K} (d : gmap K nat) : nat :=
  map_fold (λ _ v acc, (v + acc)%nat) 0%nat d.

(** Strictly ascending keys. *)
Definition label_lt (a b : string * nat) : Prop :=
  String.le a.1 b.1 ∧ a.1 ≠ b.1.

Definition http_key_lt (a b : (string * Z) * nat) : Prop :=
  Metrics.http_item_le a b ∧ a.1 ≠ b.1.

(** [s.lower()] on ASCII letters, as SQLite's LIKE folds case. *)
Fixpoint lower (s : string) : string :=
  match s with
  | "" => ""
  | String c s' => String (Storage.tolower c) (lower s')
  end.

(** No LIKE metacharacter occurs in [q]. *)
Fixpoint no_wildcard (q : string) : bool :=
  match q with
  | "" => true
  | String c q' =>
      negb (bool_decide (c = "%"%char)) && negb (bool_decide (c = "_"%char)) &&
      no_wildcard q'
  end.

(** The row the handler stores for a validated message. *)
Definition row_of (msg : Models.WebhookMessage) (created_at : string) : Storage.Row :=
  {| Storage.message_id := Some (Models.message_id msg);
     Storage.from_msisdn := Models.from_ msg;
     Storage.to_msisdn := Models.to msg;
     Storage.ts := Models.ts msg;
     Storage.text := Models.text msg;
     Storage.created_at := created_at |}.

(** The field constraints of the data model, on a message and on a row. *)
Definition valid_message `{Library} (msg : Models.WebhookMessage) : Prop :=
  Models.message_id msg ≠ "" ∧
  Models.E164_PATTERN (Models.from_ msg) = true ∧
  Models.E164_PATTERN (Models.to msg) = true ∧
  Models.ISO8601_UTC_PATTERN (Models.ts msg) = true ∧
  fromisoformat_ok (Models.replace_Z (Models.ts msg)) = true ∧
  (∀ x, Models.text msg = Some x → (String.length x ≤ 4096)%nat).

Definition valid_row `{Library} (r : Storage.Row) : Prop :=
  ∃ msg, valid_message msg ∧ r = row_of msg (Storage.created_at r).

(** A series of POST /webhook requests, each with what it reads from the
    outside world, served one after the other. *)
Definition run_webhooks `{Library} (settings : Main.Settings)
    (reqs : list (Main.Request * Main.Env)) (app : Main.App) : Main.App :=
  foldl (λ app p, (Main.post_webhook settings p.1 p.2 app).2) app reqs.

(** A second stand-in for the library, whose parser reads every body as
    the empty JSON array. *)
Definition array_library : Library := {|
  hmac_sha256 key msg := (key ++ msg)%list;
  json_loads _ := Ok (JList []);
  fromisoformat_ok _ := true;
  format_2f _ := "0.00"
|}.

(** A response item shows a row: the same five values, the id not NULL. *)
Definition shown_as (o : Responses.MessageOut) (r : Storage.Row) : Prop :=
  Storage.message_id r = Some (Responses.message_id o) ∧
  Storage.from_msisdn r = Responses.from_ o ∧
  Storage.to_msisdn r = Responses.to o ∧
  Storage.ts r = Responses.ts o ∧
  Storage.text r = Responses.text o.

(** Every character is one of 0-9. *)
Fixpoint all_digits (s : string) : bool :=
  match s with
  | "" => true
  | String c s' => Models.is_digit c && all_digits s'
  end.

(** A [str] given by its code points, each below U+0100. *)
Definition latin1 (cps : list N) : Prop := Forall (λ n, (n < 256)%N) cps.

Definition str_of (cps : list N) : string :=
  foldr (λ n s, String (ascii_of_N n) s) "" cps.

(** One of the digits 0-9. *)
Definition digit_0_9 (n : N) : Prop := (48 ≤ n ≤ 57)%N.

(** *** The limits of SQLite that bound the queries *)

(** The integers sqlite3 binds to [LIMIT ?] and [OFFSET ?]: beyond the
    signed 64-bit range [execute] raises [OverflowError]. *)
Definition int64 (n : Z) : Prop := - 2 ^ 63 ≤ n < 2 ^ 63.

(** The length in bytes of the LIKE pattern built from [q]. *)
Definition pattern_bytes (q : string) : Z :=
  Z.of_nat (length (encode ("%" +:+ q +:+ "%"))).

(** SQLite refuses a LIKE pattern of more than 50000 bytes with
    [OperationalError]. *)
Definition pattern_fits (q : option string) : Prop :=
  ∀ x, q = Some x → pattern_bytes x ≤ 50000.

(** No U+0000 in a string. *)
Fixpoint no_nul (s : string) : bool :=
  match s with
  | "" => true
  | String c s' => negb (bool_decide (c = "000"%char)) && no_nul s'
  end.

(** SQLite's LIKE reads each operand up to its first U+0000: it sees the
    whole of [q] and of every stored text when none holds that
    character. *)
Definition like_reads_all (q : option string) (rows : list Storage.Row) : Prop :=
  ∀ x, q = Some x → x ≠ "" →
    no_nul x = true ∧
    ∀ r t, r ∈ rows → Storage.text r = Some t → no_nul t = true.

(** ** The latency histogram *)

Section MetricsFacts.
Import Metrics.

Lemma bump_Inf x bs d : get Inf (bump x bs d) = get Inf d.
Proof.
  revert d; induction bs as [|b bs IH]; intros d; simpl; [done|].
  rewrite IH. destruct (float_le_int x b); [|done].
  unfold get. by rewrite lookup_insert_ne.
Qed.

Lemma bump_Le x bs d b :
  NoDup bs →
  get (Le b) (bump x bs d) =
    (get (Le b) d + if bool_decide (b ∈ bs) && float_le_int x b then 1 else 0)%nat.
Proof.
  intros Hnd; revert d; induction Hnd as [|c bs Hc Hnd IH]; intros d; cbn [bump].
  { rewrite bool_decide_eq_false_2; [simpl; lia | apply not_elem_of_nil]. }
  rewrite IH. destruct (decide (b = c)) as [->|Hne].
  - rewrite (bool_decide_eq_false_2 (c ∈ bs)) by done.
    rewrite bool_decide_eq_true_2 by left. cbn [andb].
    destruct (float_le_int x c); [|lia].
    unfold get. rewrite lookup_insert_eq. simpl. lia.
  - assert (bool_decide (b ∈ c :: bs) = bool_decide (b ∈ bs)) as ->.
    { apply bool_decide_ext. rewrite elem_of_cons. tauto. }
    destruct (float_le_int x c); [|done].
    unfold get. rewrite lookup_insert_ne; [done | congruence].
Qed.

Lemma observe_latency_Inf x m :
  inf_line_count (observe_latency x m) = S (inf_line_count m).
Proof.
  unfold inf_line_count, observe_latency; cbn [_latency_buckets].
  unfold get at 1. rewrite lookup_insert_eq. cbn [default].
  by rewrite bump_Inf.
Qed.

Lemma observe_all_snoc obs x m :
  observe_all (obs ++ [x]) m = observe_latency x (observe_all obs m).
Proof. unfold observe_all. by rewrite foldl_app. Qed.

(** The [+Inf] bucket and the observation count move together. *)
Lemma observe_all_Inf obs m :
  inf_line_count (observe_all obs m) = (inf_line_count m + length obs)%nat ∧
  _latency_count (observe_all obs m) = (_latency_count m + length obs)%nat.
Proof.
  induction obs as [|x obs IH] using rev_ind; [simpl; lia|].
  rewrite observe_all_snoc, observe_latency_Inf, length_app. simpl. lia.
Qed.

(** On leaving [__init__] the two are 0, so the [+Inf] line always shows
    the observation count. *)
Lemma inf_line_is_count obs :
  inf_line_count (observe_all obs init) = _latency_count (observe_all obs init) ∧
  _latency_count (observe_all obs init) = length obs.
Proof.
  destruct (observe_all_Inf obs init) as [-> ->].
  by assert (inf_line_count init = 0%nat) as -> by reflexivity.
Qed.

Lemma LATENCY_BUCKETS_NoDup : NoDup LATENCY_BUCKETS.
Proof. apply (bool_decide_unpack _). by vm_compute. Qed.

Lemma observe_latency_Le x m b :
  b ∈ LATENCY_BUCKETS →
  get (Le b) (_latency_buckets (observe_latency x m)) =
    (get (Le b) (_latency_buckets m) + if float_le_int x b then 1 else 0)%nat.
Proof.
  intros Hb. unfold observe_latency; cbn [_latency_buckets].
  unfold get at 1. rewrite lookup_insert_ne by done.
  change (default 0%nat (?d !! Le b)) with (get (Le b) d).
  rewrite bump_Le by apply LATENCY_BUCKETS_NoDup.
  by rewrite bool_decide_eq_true_2.
Qed.

(** What [observe_latency] keeps under a finite bound is already
    cumulative: the number of observations at or below it. *)
Lemma stored_bucket_is_cumulative obs b :
  b ∈ LATENCY_BUCKETS →
  get (Le b) (_latency_buckets (observe_all obs init)) =
    length (filter (λ x, float_le_int x b) obs).
Proof.
  intros Hb. induction obs as [|x obs IH] using rev_ind.
  - vm_compute in Hb. cbn [observe_all foldl filter length].
    repeat (apply elem_of_cons in Hb as [->|Hb]; [reflexivity|]).
    by apply elem_of_nil in Hb.
  - rewrite observe_all_snoc, observe_latency_Le, IH by done.
    rewrite filter_app, length_app, filter_cons, filter_nil.
    by destruct (float_le_int x b).
Qed.

(** [format_prometheus] sums the stored values once more: the finite lines
    are running sums, hence non-decreasing among themselves. *)
Lemma bucket_samples_sorted c bs d :
  Forall (λ n, c ≤ n)%nat (bucket_samples c bs d).*2 ∧
  StronglySorted (λ a b, a ≤ b)%nat (bucket_samples c bs d).*2.
Proof.
  revert c; induction bs as [|b bs IH]; intros c; simpl.
  { split; constructor. }
  destruct (IH (c + get (Le b) d)%nat) as [Hall Hs]. split.
  - constructor; [lia|]. eapply Forall_impl; [exact Hall|]. simpl. lia.
  - by constructor.
Qed.

Lemma finite_lines_sorted obs :
  StronglySorted (λ a b, a ≤ b)%nat (finite_line_counts (observe_all obs init)).
Proof. apply bucket_samples_sorted. Qed.

End MetricsFacts.

Section HistogramRendering.
Import Metrics.
Context `{Library}.

(** The histogram part of the rendered text: the finite lines carry the
    running sums of [bucket_samples], then come the [+Inf] line with the
    stored [+Inf] value and the count line. *)
Lemma format_prometheus_histogram m :
  ∃ counters,
    format_prometheus_lines m =
      (counters ++
       (bucket_line <$> bucket_samples 0 LATENCY_BUCKETS (_latency_buckets m)) ++
       [ inf_line m; count_line m;
         "request_latency_ms_sum " +:+ format_2f (_latency_sum m) ])%list.
Proof.
  unfold format_prometheus_lines. eexists.
  rewrite !(assoc_L (++)%list). reflexivity.
Qed.

(** C3 (as the code behaves): after a single observation of 5 ms the
    rendered finite bucket lines read 1, 2, ..., 10 while the [+Inf] line
    and [request_latency_ms_count] read 1: the [le="10000"] line is larger
    than the next ([+Inf]) line, because [format_prometheus] accumulates
    values that [observe_latency] already stored cumulatively. *)
Theorem histogram_lines_after_one_observation :
  let m := observe_all [5%float] init in
  finite_line_counts m = [1; 2; 3; 4; 5; 6; 7; 8; 9; 10]%nat ∧
  inf_line_count m = 1%nat ∧
  _latency_count m = 1%nat ∧
  drop 8 (format_prometheus_lines m) =
    ((bucket_line <$>
        [(10, 1%nat); (25, 2%nat); (50, 3%nat); (100, 4%nat); (250, 5%nat);
         (500, 6%nat); (1000, 7%nat); (2500, 8%nat); (5000, 9%nat);
         (10000, 10%nat)]) ++
     [ "request_latency_ms_bucket{le=" +:+ dq +:+ "+Inf" +:+ dq +:+ "} 1";
       "request_latency_ms_count 1";
       "request_latency_ms_sum " +:+ format_2f 5%float ])%list.
Proof. cbv zeta. repeat split; vm_compute; reflexivity. Qed.

End HistogramRendering.

(** ** Idempotent insertion *)

Section InsertFacts.
Import Storage.

Lemma has_id_false i rows : has_id i rows = false → rows_with_id i rows = [].
Proof.
  unfold has_id, rows_with_id. intros Hno%bool_decide_eq_false.
  induction rows as [|r rows IH]; [done|].
  rewrite fmap_cons, not_elem_of_cons in Hno. destruct Hno as [Hr Hno].
  rewrite filter_cons, decide_False by congruence. auto.
Qed.

Lemma has_id_true i rows : has_id i rows = true → rows_with_id i rows ≠ [].
Proof.
  unfold has_id, rows_with_id. intros Hin%bool_decide_eq_true.
  apply list_elem_of_fmap in Hin as (r & Hr & Hin).
  intros Hnil. by eapply (filter_nil_not_elem_of _ _ r).
Qed.

Lemma has_id_app i rows rows' :
  has_id i (rows ++ rows') = has_id i rows || has_id i rows'.
Proof.
  unfold has_id. rewrite fmap_app.
  destruct (bool_decide (Some i ∈ message_id <$> rows)) eqn:H1;
    destruct (bool_decide (Some i ∈ message_id <$> rows')) eqn:H2; simpl;
    [apply bool_decide_eq_true; apply bool_decide_eq_true in H1
    |apply bool_decide_eq_true; apply bool_decide_eq_true in H1
    |apply bool_decide_eq_true; apply bool_decide_eq_true in H2
    |apply bool_decide_eq_false; apply bool_decide_eq_false in H1;
     apply bool_decide_eq_false in H2];
    rewrite elem_of_app; tauto.
Qed.

(** A statement that succeeds had all its NOT NULL values, met no row with
    its key, and appended exactly its own row. *)
Lemma execute_insert_Ok rows m f t s x c rows' :
  execute_insert rows m f t s x c = Ok rows' →
  ∃ f' t' s',
    f = Some f' ∧ t = Some t' ∧ s = Some s' ∧
    (∀ i, m = Some i → has_id i rows = false) ∧
    rows' = (rows ++ [{| message_id := m; from_msisdn := f'; to_msisdn := t';
                         ts := s'; text := x; created_at := c |}])%list.
Proof.
  unfold execute_insert. destruct f as [f'|], t as [t'|], s as [s'|]; try done.
  destruct m as [i|].
  - destruct (has_id i rows) eqn:Hid; [done|]. intros [= <-].
    exists f', t', s'. repeat split; try done. by intros ? [= <-].
  - intros [= <-]. exists f', t', s'. repeat split; done.
Qed.

(** Whatever stops a statement is a constraint violation. *)
Lemma execute_insert_Raise rows m f t s x c e :
  execute_insert rows m f t s x c = Raise e → ∃ k, e = IntegrityError k.
Proof.
  unfold execute_insert. destruct f, t, s; try (intros [= <-]; eauto).
  destruct (match m with Some i => has_id i rows | None => false end);
    [intros [= <-]; eauto | done].
Qed.

(** With the key present the statement is refused, whatever else it holds. *)
Lemma execute_insert_duplicate rows i f t s x c :
  has_id i rows = true →
  ∃ k, execute_insert rows (Some i) f t s x c = Raise (IntegrityError k).
Proof.
  intros Hid. unfold execute_insert. rewrite Hid.
  destruct f, t, s; eauto.
Qed.

(** The primary key holds in every table the code can build. *)
Lemma pk_unique_init : pk_unique [].
Proof. constructor. Qed.

Lemma pk_unique_insert rows m f t s x c r db :
  pk_unique rows →
  insert_message (Ready rows) m f t s x c = (r, db) →
  ∃ rows', db = Ready rows' ∧ pk_unique rows'.
Proof.
  intros Hpk. unfold insert_message.
  destruct (execute_insert rows m f t s x c) as [rows'|e] eqn:Hex.
  - intros [= <- <-]. exists rows'. split; [done|].
    apply execute_insert_Ok in Hex as (f' & t' & s' & -> & -> & -> & Hfresh & ->).
    unfold pk_unique. rewrite omap_app. simpl.
    destruct m as [i|]; simpl; [|by rewrite app_nil_r].
    apply NoDup_app. split; [done|]. split; [|apply NoDup_singleton].
    intros j Hj ->%list_elem_of_singleton.
    specialize (Hfresh i eq_refl). unfold has_id in Hfresh.
    apply bool_decide_eq_false in Hfresh. apply Hfresh.
    apply list_elem_of_omap in Hj as (r' & Hr' & Hid).
    apply list_elem_of_fmap. exists r'. by rewrite Hid.
  - destruct (execute_insert_Raise _ _ _ _ _ _ _ _ Hex) as [k ->].
    intros [= <- <-]. eauto.
Qed.

(** Under the primary key a table holds at most one row per id. *)
Lemma pk_unique_at_most_one i rows :
  pk_unique rows → (length (rows_with_id i rows) ≤ 1)%nat.
Proof.
  intros Hpk. induction rows as [|r rows IH]; [simpl; lia|].
  unfold pk_unique in *. cbn [omap list_omap] in Hpk.
  unfold rows_with_id. rewrite filter_cons. fold (rows_with_id i rows).
  destruct (message_id r) as [j|] eqn:Hj.
  - apply NoDup_cons in Hpk as [Hnot Hnd].
    destruct (decide (Some j = Some i)) as [[= ->]|]; [|auto].
    assert (has_id i rows = false) as Hno.
    { apply bool_decide_eq_false. intros (r' & Hr' & Hin)%list_elem_of_fmap.
      apply Hnot, list_elem_of_omap. exists r'. by rewrite <- Hr'. }
    rewrite (has_id_false _ _ Hno). simpl; lia.
  - rewrite decide_False by done. auto.
Qed.

(** An attempt with all its values on a usable table succeeds, as an
    insert or as a duplicate, and leaves exactly one row with its id. *)
Lemma insert_message_some rows i f t s x c :
  pk_unique rows →
  ∃ is_dup rows',
    insert_message (Ready rows) (Some i) (Some f) (Some t) (Some s) x c =
      (Ok (true, is_dup), Ready rows') ∧
    pk_unique rows' ∧
    length (rows_with_id i rows') = 1%nat.
Proof.
  intros Hpk.
  destruct (insert_message (Ready rows) (Some i) (Some f) (Some t) (Some s) x c)
    as [r db] eqn:Hins.
  destruct (pk_unique_insert _ _ _ _ _ _ _ _ _ Hpk Hins) as (rows' & -> & Hpk').
  revert Hins. unfold insert_message, execute_insert.
  destruct (has_id i rows) eqn:Hhas; intros [= <- <-].
  - exists true, rows. split_and!; try done.
    pose proof (pk_unique_at_most_one i rows Hpk).
    pose proof (has_id_true i rows Hhas).
    destruct (rows_with_id i rows) as [|? [|??]]; simpl in *; [done|done|lia].
  - eexists false, _. split_and!; try done.
    unfold rows_with_id. rewrite filter_app. fold (rows_with_id i rows).
    rewrite (has_id_false _ _ Hhas). simpl.
    by rewrite filter_cons, decide_True.
Qed.

(** C2: when a first attempt on a [message_id] inserts, the table holds
    exactly one row with that id, carrying the first attempt's values; a
    later attempt on the same id, whatever its other fields, is reported as
    a duplicate and leaves the whole table as it was (no field changed, no
    row added). *)
Theorem insert_message_first_writer_wins
    db i f1 t1 s1 x1 c1 db1 f2 t2 s2 x2 c2 :
  insert_message db (Some i) f1 t1 s1 x1 c1 = (Ok (true, false), db1) →
  ∃ f t s rows1,
    f1 = Some f ∧ t1 = Some t ∧ s1 = Some s ∧
    db1 = Ready rows1 ∧
    rows_with_id i rows1 =
      [{| message_id := Some i; from_msisdn := f; to_msisdn := t; ts := s;
          text := x1; created_at := c1 |}] ∧
    insert_message db1 (Some i) f2 t2 s2 x2 c2 = (Ok (true, true), db1).
Proof.
  unfold insert_message at 1. destruct db as [fl|rows]; [done|].
  destruct (execute_insert rows (Some i) f1 t1 s1 x1 c1) as [rows1|e] eqn:Hex;
    [|by destruct e].
  intros [= <-].
  apply execute_insert_Ok in Hex as (f & t & s & -> & -> & -> & Hfresh & ->).
  specialize (Hfresh i eq_refl).
  eexists f, t, s, _. split_and!; [done..| |].
  - unfold rows_with_id. rewrite filter_app.
    fold (rows_with_id i rows). rewrite (has_id_false _ _ Hfresh). simpl.
    rewrite filter_cons, decide_True by done. done.
  - unfold insert_message.
    edestruct (execute_insert_duplicate) as [k ->]; [|done].
    rewrite has_id_app, Hfresh. simpl.
    unfold has_id. apply bool_decide_eq_true. simpl. apply list_elem_of_singleton. done.
Qed.

Lemma insert_message_first_writer_wins_witness :
  let db := Ready [] in
  let db1 := Ready [{| message_id := Some "m1"; from_msisdn := "+1555";
                       to_msisdn := "+1666"; ts := "2025-01-15T10:00:00Z";
                       text := Some "first"; created_at := "2025-01-15T10:00:01Z" |}] in
  insert_message db (Some "m1") (Some "+1555") (Some "+1666")
    (Some "2025-01-15T10:00:00Z") (Some "first") "2025-01-15T10:00:01Z"
    = (Ok (true, false), db1) ∧
  insert_message db1 (Some "m1") (Some "+1999") (Some "+1888")
    (Some "2026-02-02T02:02:02Z") (Some "second") "2026-02-02T02:02:03Z"
    = (Ok (true, true), db1).
Proof.
  split; [reflexivity|].
  destruct (insert_message_first_writer_wins (Ready []) "m1"
              (Some "+1555") (Some "+1666") (Some "2025-01-15T10:00:00Z")
              (Some "first") "2025-01-15T10:00:01Z" _
              (Some "+1999") (Some "+1888") (Some "2026-02-02T02:02:02Z")
              (Some "second") "2026-02-02T02:02:03Z" eq_refl)
    as (? & ? & ? & ? & _ & _ & _ & _ & _ & Hsecond).
  exact Hsecond.
Defined.

(** C9: [insert_message] has three outcomes only: it returns
    [(True, False)], it returns [(True, True)], or it raises; the
    documented [(False, False)] never comes back.  Every
    [IntegrityError] of the statement is answered [(True, True)] with the
    table untouched, also a NOT NULL violation on a table that holds no row
    with the given id; an unusable database makes the call raise. *)
Theorem insert_message_outcomes :
  (∀ db m f t s x c, (insert_message db m f t s x c).1 ≠ Ok (false, false)) ∧
  (∀ db m f t s x c,
     (insert_message db m f t s x c).1 ∈
       [Ok (true, false); Ok (true, true); Raise OperationalError;
        Raise DatabaseError]) ∧
  (∀ rows m f t s x c k,
     execute_insert rows m f t s x c = Raise (IntegrityError k) →
     insert_message (Ready rows) m f t s x c = (Ok (true, true), Ready rows)) ∧
  (∀ rows m t s x c,
     execute_insert rows m None t s x c =
       Raise (IntegrityError (NotNull "from_msisdn")) ∧
     insert_message (Ready rows) m None t s x c = (Ok (true, true), Ready rows)) ∧
  (∀ fl m f t s x c,
     insert_message (Broken fl) m f t s x c = (Raise (fault_exn fl), Broken fl)).
Proof.
  assert (∀ db m f t s x c,
     (insert_message db m f t s x c).1 ∈
       [Ok (true, false); Ok (true, true); Raise OperationalError;
        Raise DatabaseError]) as Hcases.
  { intros [fl|rows] m f t s x c; unfold insert_message.
    - destruct fl; simpl; set_solver.
    - destruct (execute_insert rows m f t s x c) as [rows'|e] eqn:Hex.
      + simpl; set_solver.
      + destruct (execute_insert_Raise _ _ _ _ _ _ _ _ Hex) as [k ->].
        simpl; set_solver. }
  repeat split; try done.
  - intros db m f t s x c Heq. specialize (Hcases db m f t s x c).
    rewrite Heq in Hcases.
    repeat (apply elem_of_cons in Hcases as [?|Hcases]; [done|]).
    by apply elem_of_nil in Hcases.
  - intros rows m f t s x c k Hex. unfold insert_message. by rewrite Hex.
Qed.

End InsertFacts.

(** ** Filtered, ordered, paginated retrieval *)

Section QueryFacts.
Import Storage.

Local Instance id_le_total : Total id_le.
Proof. intros [x|] [y|]; simpl; auto. apply (total String.le). Qed.

Local Instance id_le_trans : Transitive id_le.
Proof.
  intros [x|] [y|] [z|]; simpl; try done. apply (transitivity (R:=String.le)).
Qed.

Local Instance order_by_total : Total order_by.
Proof.
  intros r1 r2. unfold order_by.
  destruct (decide (ts r1 = ts r2)) as [Heq|Hne].
  - rewrite decide_True by done. apply (total id_le).
  - rewrite decide_False by congruence. apply (total String.le).
Qed.

Local Instance order_by_trans : Transitive order_by.
Proof.
  intros r1 r2 r3. unfold order_by.
  destruct (decide (ts r1 = ts r2)) as [E12|N12];
    destruct (decide (ts r2 = ts r3)) as [E23|N23];
    destruct (decide (ts r1 = ts r3)) as [E13|N13];
    try congruence; intros H12 H23.
  - by etrans.
  - exfalso. apply N12. apply (anti_symm String.le); [done|by rewrite E13].
  - by etrans.
Qed.

Lemma limit_offset_sorted {A} (R : relation A) limit offset l :
  StronglySorted R l → StronglySorted R (limit_offset limit offset l).
Proof.
  intros Hl. unfold limit_offset.
  assert (StronglySorted R (drop (Z.to_nat offset) l)) as Hd.
  { rewrite <- (take_drop (Z.to_nat offset) l) in Hl.
    by apply StronglySorted_app_1_r in Hl. }
  case_bool_decide; [done|].
  rewrite <- (take_drop (Z.to_nat limit) (drop _ l)) in Hd.
  by apply StronglySorted_app_1_l in Hd.
Qed.

Lemma dict_ts_to_dict r : dict_ts (to_dict r) = ts r.
Proof. reflexivity. Qed.

Lemma dict_id_to_dict r : dict_id (to_dict r) = message_id r.
Proof. reflexivity. Qed.

Lemma page_order_to_dict r1 r2 :
  page_order (to_dict r1) (to_dict r2) ↔ order_by r1 r2.
Proof.
  unfold page_order, order_by.
  by rewrite !dict_ts_to_dict, !dict_id_to_dict.
Qed.

(** Whatever the table, the filters and the pagination, the page is
    ordered: every entry may stand before every later one. *)
Lemma page_is_sorted db limit offset from_filter since q page total :
  get_messages db limit offset from_filter since q = Ok (page, total) →
  StronglySorted page_order page.
Proof.
  unfold get_messages. destruct db as [fl|rows]; [done|]. intros [= <- _].
  eapply StronglySorted_fmap; [intros ??; apply page_order_to_dict|].
  apply limit_offset_sorted, (StronglySorted_merge_sort _).
Qed.

Lemma strictly_before_order_by a b : strictly_before a b → order_by a b.
Proof.
  unfold order_by. intros [[Hle Hne]|(Heq & Hle & _)].
  - by rewrite decide_False.
  - by rewrite decide_True.
Qed.

Lemma id_le_antisym a b : id_le a b → id_le b a → a = b.
Proof.
  destruct a as [x|], b as [y|]; simpl; try done.
  intros H1 H2. f_equal. by apply (anti_symm String.le).
Qed.

Lemma strictly_before_not_after a b : strictly_before a b → ¬ order_by b a.
Proof.
  unfold order_by. intros [[Hle Hne]|(Heq & Hle & Hne)] Hba.
  - rewrite decide_False in Hba by congruence.
    apply Hne. by apply (anti_symm String.le).
  - rewrite decide_True in Hba by congruence.
    apply Hne. by apply id_le_antisym.
Qed.

Lemma strictly_before_ts_trans a b c :
  String.le (ts a) (ts b) ∧ ts a ≠ ts b →
  String.le (ts b) (ts c) →
  strictly_before a c.
Proof.
  intros [Hab Hne] Hbc. left. split; [by etrans|].
  intros Heq. apply Hne. apply (anti_symm String.le); [done|by rewrite Heq].
Qed.

Lemma filter_no_condition (rows : list Row) :
  filter (λ r, where_clause (conditions None None None) r) rows = rows.
Proof.
  induction rows as [|r rows IH]; [done|].
  rewrite filter_cons, decide_True by done. by rewrite IH.
Qed.

(** The scenario of the ordering property: four messages with timestamps
    T1 < T2 = T2' < T3, stored in any order, come back as T1, the two T2
    messages by ascending id, T3. *)
Lemma get_messages_four_messages rows r1 r2 r2' r3 limit :
  rows ≡ₚ [r1; r2; r2'; r3] →
  String.le (ts r1) (ts r2) ∧ ts r1 ≠ ts r2 →
  ts r2 = ts r2' →
  id_le (message_id r2) (message_id r2') ∧ message_id r2 ≠ message_id r2' →
  String.le (ts r2') (ts r3) ∧ ts r2' ≠ ts r3 →
  limit < 0 ∨ 4 ≤ limit →
  get_messages (Ready rows) limit 0 None None None =
    Ok (to_dict <$> [r1; r2; r2'; r3], 4%nat).
Proof.
  intros Hperm H12 H22 Hid H23 Hlimit.
  assert (strictly_before r1 r2) as B12 by (by left).
  assert (strictly_before r2 r2') as B22 by (right; tauto).
  assert (strictly_before r2' r3) as B23 by (by left).
  assert (strictly_before r1 r2') as B12'.
  { apply (strictly_before_ts_trans _ r2); [done|by rewrite H22]. }
  assert (strictly_before r2 r3) as B2'3 by (left; by rewrite H22).
  assert (strictly_before r1 r3) as B13.
  { apply (strictly_before_ts_trans _ r2); [done|]. rewrite H22. apply H23. }
  assert (merge_sort order_by rows = [r1; r2; r2'; r3]) as Hsorted.
  { apply (StronglySorted_unique_strong order_by).
    - intros x1 x2 Hx1 Hx2 Hle Hge.
      rewrite merge_sort_Permutation, Hperm in Hx1.
      repeat (apply elem_of_cons in Hx1 as [->|Hx1]);
        try (by apply elem_of_nil in Hx1);
        repeat (apply elem_of_cons in Hx2 as [->|Hx2]);
        try (by apply elem_of_nil in Hx2);
        try done;
        exfalso;
        first [ eapply strictly_before_not_after; [|exact Hge]; eassumption
              | eapply strictly_before_not_after; [|exact Hle]; eassumption ].
    - apply (StronglySorted_merge_sort _).
    - repeat constructor; by apply strictly_before_order_by.
    - by rewrite merge_sort_Permutation. }
  unfold get_messages. cbv zeta. rewrite filter_no_condition, Hsorted.
  rewrite (Permutation_length Hperm). do 2 f_equal.
  unfold limit_offset. simpl. case_bool_decide; [done|].
  rewrite take_ge; [done|]. simpl. lia.
Qed.



(** *** The filter and the total *)

Lemma when_spec param cond (r : Row) :
  forallb (λ c, c r) (when param cond) = true ↔
  ∀ v, param = Some v → v ≠ "" → cond v r = true.
Proof.
  destruct param as [[|a v]|]; simpl.
  - split; [by intros _ ? [= <-]|done].
  - rewrite andb_true_r. split; [by intros ? ? [= <-]|]. intros Hc. by apply Hc.
  - split; [done|by intros _].
Qed.

Lemma where_clause_satisfies from_filter since q r :
  where_clause (conditions from_filter since q) r = true ↔
  satisfies from_filter since q r.
Proof.
  unfold where_clause, conditions, satisfies.
  rewrite !forallb_app, !andb_true_iff, !when_spec.
  split; intros (H1 & H2 & H3); split_and!; intros v Hv Hne.
  - eapply bool_decide_eq_true_1, H1; done.
  - unfold String.le. apply Is_true_true. by apply H2.
  - specialize (H3 v Hv Hne). destruct (text r) as [t|]; [eauto|done].
  - apply bool_decide_eq_true_2. by apply H1.
  - apply Is_true_true. by apply (H2 v).
  - destruct (H3 v Hv Hne) as (t & -> & Ht). done.
Qed.

Local Instance satisfies_dec from_filter since q r :
  Decision (satisfies from_filter since q r).
Proof.
  refine (cast_if (decide (where_clause (conditions from_filter since q) r = true)));
    by rewrite <- where_clause_satisfies.
Defined.

(** C7: the total returned with a page does not depend on [limit] and
    [offset]: for a fixed store and fixed filters any two calls that
    return, return the same total; the store is then usable, and the total
    is the number of stored rows that satisfy the filters (the text filter
    read as SQLite reads it: a pattern within its length limit, operands
    without U+0000). *)
Theorem get_messages_total_independent
    db from_filter since q limit1 offset1 limit2 offset2 page1 total1 page2 total2 :
  get_messages db limit1 offset1 from_filter since q = Ok (page1, total1) →
  get_messages db limit2 offset2 from_filter since q = Ok (page2, total2) →
  total1 = total2 ∧
  ∃ rows,
    db = Ready rows ∧
    (pattern_fits q → like_reads_all q rows →
     total1 = length (filter (satisfies from_filter since q) rows)).
Proof.
  destruct db as [fl|rows]; [done|]. unfold get_messages. cbv zeta.
  intros [= _ <-] [= _ <-]. split; [done|]. exists rows. split; [done|].
  intros _ _. f_equal. apply list_filter_iff. intros r.
  by rewrite <- where_clause_satisfies, Is_true_true.
Qed.

(** The sample table searched for "second", in pages of one and of
    fifty. *)
Lemma get_messages_total_independent_witness :
  ∃ page1 page2 total1 total2,
    get_messages (Ready sample_rows) 1 0 None None (Some "second")
      = Ok (page1, total1) ∧
    get_messages (Ready sample_rows) 50 1 None None (Some "second")
      = Ok (page2, total2) ∧
    total1 = total2 ∧ total1 = 2%nat.
Proof.
  eexists _, _, _, _. split; [reflexivity|]. split; [reflexivity|].
  split; [|by vm_compute].
  exact (proj1 (get_messages_total_independent (Ready sample_rows) None None
                  (Some "second") 1 0 50 1 _ _ _ _ eq_refl eq_refl)).
Defined.

(** *** The text filter *)

Lemma like_percent t : like "%" t = true.
Proof. induction t as [|c t IH]; [done|]. simpl in *. by rewrite IH. Qed.

Lemma like_percent_percent p t : like p t = true → like (String "%" p) t = true.
Proof. intros Hp. destruct t; simpl; by rewrite Hp. Qed.

(** With [q = "%"] the pattern is [%%%], which every string matches. *)
Lemma like_wildcard_q t : like ("%" +:+ "%" +:+ "%") t = true.
Proof.
  change ("%" +:+ "%" +:+ "%") with (String "%" (String "%" "%")).
  do 2 apply like_percent_percent. apply like_percent.
Qed.

Lemma where_clause_wildcard_q r :
  where_clause (conditions None None (Some "%")) r = bool_decide (text r ≠ None).
Proof.
  unfold where_clause, conditions, when. cbn -[like String.app].
  destruct (text r); [by rewrite like_wildcard_q|done].
Qed.


End QueryFacts.

(** ** Statistics *)

Section StatsFacts.
Import Storage.

Local Open Scope nat_scope.

Lemma sum_list_with_add {A} (f g : A → nat) l :
  sum_list_with (λ x, f x + g x) l = sum_list_with f l + sum_list_with g l.
Proof. induction l; simpl; lia. Qed.

Lemma sum_list_with_ext {A} (f g : A → nat) l :
  (∀ x, x ∈ l → f x = g x) → sum_list_with f l = sum_list_with g l.
Proof.
  induction l as [|a l IH]; intros Hfg; simpl; [done|].
  rewrite (Hfg a), IH; [done| |by left]. intros x Hx. apply Hfg. by right.
Qed.

Lemma sum_list_with_fmap {A B} (g : A → B) (f : B → nat) l :
  sum_list_with f (g <$> l) = sum_list_with (λ x, f (g x)) l.
Proof. induction l; csimpl; [done|]. by f_equal. Qed.

Lemma sum_list_with_zero {A} (l : list A) : sum_list_with (λ _, 0) l = 0.
Proof. induction l; simpl; lia. Qed.

(** Over a duplicate-free list, exactly one entry equals a given member. *)
Lemma sum_list_with_indicator `{EqDecision A} (x : A) l :
  NoDup l → x ∈ l →
  sum_list_with (λ y, if decide (x = y) then 1 else 0) l = 1.
Proof.
  induction 1 as [|y l Hy Hnd IH]; [by intros ?%elem_of_nil|].
  intros [->|Hin]%elem_of_cons; simpl.
  - rewrite decide_True by done.
    rewrite (sum_list_with_ext _ (λ _, 0)), sum_list_with_zero; [done|].
    intros z Hz. rewrite decide_False; [done|]. by intros <-.
  - rewrite decide_False by (by intros <-). by rewrite IH.
Qed.

(** Each row is counted under exactly one of the distinct senders. *)
Lemma sum_count_from rows l :
  NoDup l → Forall (λ r, from_msisdn r ∈ l) rows →
  sum_list_with (count_from rows) l = length rows.
Proof.
  intros Hnd. induction 1 as [|r rows Hr _ IH]; simpl.
  { apply sum_list_with_zero. }
  trans (sum_list_with
           (λ s, (if decide (from_msisdn r = s) then 1 else 0) + count_from rows s) l).
  - apply sum_list_with_ext. intros s _.
    unfold count_from. rewrite filter_cons. by case_decide.
  - by rewrite sum_list_with_add, IH, sum_list_with_indicator.
Qed.

Lemma sum_counts_group_by_sender rows :
  sum_counts (group_by_sender rows) = length rows.
Proof.
  unfold sum_counts, group_by_sender.
  rewrite sum_list_with_fmap. simpl. fold (count_from rows).
  rewrite merge_sort_Permutation. apply sum_count_from.
  - apply NoDup_remove_dups.
  - apply Forall_forall. intros r Hr.
    apply elem_of_remove_dups, list_elem_of_fmap. eauto.
Qed.

Lemma group_by_sender_length rows :
  length (group_by_sender rows) = length (senders rows).
Proof.
  unfold group_by_sender. by rewrite length_fmap, merge_sort_Permutation.
Qed.

(** Every group stands for at least one row. *)
Lemma group_by_sender_positive rows :
  Forall (λ g, 1 ≤ count g) (group_by_sender rows).
Proof.
  unfold group_by_sender. apply Forall_fmap, Forall_forall. intros s Hs. simpl.
  rewrite merge_sort_Permutation in Hs.
  apply elem_of_remove_dups, list_elem_of_fmap in Hs as (r & -> & Hr).
  destruct (filter _ rows) eqn:Hf; [|simpl; lia].
  by apply (filter_nil_not_elem_of _ _ r) in Hf.
Qed.

Lemma sum_list_with_positive {A} (f : A → nat) l :
  Forall (λ x, 1 ≤ f x) l → sum_list_with f l = 0 → l = [].
Proof. destruct 1; simpl; [done|lia]. Qed.

(** Cutting the groups after the tenth, in whatever order they stand:
    the counts kept sum to at most the number of rows, and to all of it
    exactly when nothing is cut. *)
Lemma top_ten_sum rows (sorted : list SenderCount) :
  sorted ≡ₚ group_by_sender rows →
  sum_counts (take 10 sorted) ≤ length rows ∧
  (sum_counts (take 10 sorted) = length rows ↔ length (senders rows) ≤ 10).
Proof.
  intros Hperm.
  assert (sum_counts (take 10 sorted) + sum_counts (drop 10 sorted) = length rows)
    as Hsplit.
  { unfold sum_counts. rewrite <- sum_list_with_app, take_drop.
    rewrite Hperm. apply sum_counts_group_by_sender. }
  assert (length sorted = length (senders rows)) as Hlen.
  { by rewrite Hperm, group_by_sender_length. }
  split; [lia|]. rewrite <- Hlen. split.
  - intros Heq. assert (drop 10 sorted = []) as Hnil.
    { apply (sum_list_with_positive count); [|unfold sum_counts in *; lia].
      apply Forall_drop. rewrite Hperm. apply group_by_sender_positive. }
    apply (f_equal length) in Hnil. rewrite length_drop in Hnil. simpl in Hnil. lia.
  - intros Hle. rewrite drop_ge in Hsplit by done.
    unfold sum_counts in *; simpl in Hsplit. lia.
Qed.

(** C4, amended: [messages_per_sender] lists at most the ten largest
    groups, so its counts sum to at most [total_messages], and to exactly
    [total_messages] precisely when there are at most ten distinct
    senders. *)
Theorem get_stats_sum_of_counts db stats :
  get_stats db = Ok stats →
  sum_counts (messages_per_sender stats) ≤ total_messages stats ∧
  (sum_counts (messages_per_sender stats) = total_messages stats ↔
   senders_count stats ≤ 10).
Proof.
  destruct db as [fl|rows]; [done|]. intros [= <-]. simpl.
  apply top_ten_sum, merge_sort_Permutation.
Qed.

Lemma get_stats_sum_of_counts_witness :
  ∃ stats,
    get_stats (Ready sample_rows) = Ok stats ∧
    sum_counts (messages_per_sender stats) = 4 ∧
    total_messages stats = 4 ∧
    senders_count stats = 1.
Proof.
  eexists. split; [reflexivity|].
  pose proof (get_stats_sum_of_counts (Ready sample_rows) _ eq_refl) as [_ Hiff].
  split; [|split; reflexivity].
  rewrite (proj2 Hiff); [reflexivity | vm_compute; lia].
Defined.

(** C4 as stated fails: with eleven senders of one message each the ten
    listed counts sum to 10 while [total_messages] is 11. *)
Lemma get_stats_sum_counterexample :
  ¬ (∀ db stats,
       get_stats db = Ok stats →
       sum_counts (messages_per_sender stats) = total_messages stats).
Proof.
  intros Hall. specialize (Hall (Ready eleven_senders) _ eq_refl).
  vm_compute in Hall. discriminate.
Qed.

End StatsFacts.

(** ** The /webhook handler *)

Section WebhookFacts.
Import Main.
Context `{Library}.

Ltac in_list := first [by left | right; in_list].

Lemma hex_isascii bs : isascii (hex bs) = true.
Proof.
  induction bs as [|b bs IH]; [done|].
  cbn [hex isascii]. rewrite IH. by destruct b.
Qed.

(** On an ASCII-only signature [verify_signature] is the comparison with
    the hexadecimal HMAC. *)
Lemma verify_signature_ascii body signature secret :
  isascii signature = true →
  verify_signature body signature secret =
    Ok (bool_decide (signature = hex (hmac_sha256 (encode secret) body))).
Proof.
  intros Hsig. unfold verify_signature, compare_digest.
  rewrite hex_isascii, Hsig. simpl. f_equal.
  destruct (String.eqb_spec (hex (hmac_sha256 (encode secret) body)) signature).
  - by rewrite bool_decide_eq_true_2.
  - by rewrite bool_decide_eq_false_2.
Qed.

(** On any other signature it raises. *)
Lemma verify_signature_non_ascii body signature secret :
  isascii signature = false →
  verify_signature body signature secret = Raise TypeError.
Proof.
  intros Hsig. unfold verify_signature, compare_digest.
  by rewrite hex_isascii, Hsig.
Qed.

(** C5 (as the code behaves): for the one-character signature U+00E9, as
    a header byte 0xE9 is decoded, [verify_signature] raises [TypeError]
    for every body and secret instead of returning [False]; the handler
    turns that into 500 "internal server error", counted as
    [server_error], where a bad signature is to give 401. *)
Theorem verify_signature_raises body c secret env app :
  let signature := String "233" "" in
  let req := {| path := "/webhook"; body := body;
                x_signature := Some signature |} in
  let settings := {| webhook_secret := Some (String c secret) |} in
  let r := post_webhook settings req env app in
  (∀ secret, verify_signature body signature secret = Raise TypeError) ∧
  status_code r.1 = 500 ∧
  content r.1 = detail (JStr "internal server error") ∧
  Metrics._webhook_requests (metrics r.2) =
    Metrics.incr "server_error" (Metrics._webhook_requests (metrics app)).
Proof.
  cbv zeta.
  assert (∀ secret, verify_signature body (String "233" "") secret
                    = Raise TypeError) as Hraise
    by (intros; by apply verify_signature_non_ascii).
  split; [done|].
  unfold post_webhook, logging_middleware, webhook, webhook_try,
    signature_rejected.
  cbn [webhook_secret x_signature Main.body truthy negb].
  rewrite Hraise. done.
Qed.

(** The handler counts one outcome, whichever way it leaves. *)
Lemma webhook_counts_once settings req env app :
  ∃ result,
    (status_code (webhook settings req env app).1, result) ∈ outcomes ∧
    metrics (webhook settings req env app).2 =
      Metrics.inc_webhook_requests result (metrics app).
Proof.
  unfold webhook, webhook_try.
  destruct (webhook_secret settings) as [secret|];
    [destruct (negb (truthy (Some secret)))|];
    [exists "server_error"; split; [in_list|done]| |
     exists "server_error"; split; [in_list|done]].
  destruct (signature_rejected _ _ _) as [[]|e];
    [exists "invalid_signature"; split; [in_list|done]| |
     exists "server_error"; split; [in_list|done]].
  destruct (parse (Main.body req)) as [message|[]];
    try (exists "server_error"; split; [in_list|done]);
    try (exists "validation_error"; split; [in_list|done]).
  destruct (Storage.insert_message _ _ _ _ _ _ _) as [[[success []]|e] db].
  - exists "duplicate"; split; [in_list|done].
  - exists "created"; split; [in_list|done].
  - exists "server_error"; split; [in_list|done].
Qed.

(** C8: every POST /webhook request, whatever gate it leaves at, changes
    the collector by exactly one [inc_webhook_requests], one
    [inc_http_requests] and one [observe_latency]: one outcome counter goes
    up by one, the others stay, and the observation count goes up by
    one. *)
Theorem post_webhook_records_once settings req env app :
  ∃ result,
    let r := post_webhook settings req env app in
    let m := metrics app in
    (status_code r.1, result) ∈ outcomes ∧
    metrics r.2 =
      Metrics.observe_latency (latency_ms env)
        (Metrics.inc_http_requests (path req) (status_code r.1)
           (Metrics.inc_webhook_requests result m)) ∧
    Metrics._webhook_requests (metrics r.2) =
      <[result := S (default 0%nat (Metrics._webhook_requests m !! result))]>
        (Metrics._webhook_requests m) ∧
    Metrics._latency_count (metrics r.2) = S (Metrics._latency_count m) ∧
    inf_line_count (metrics r.2) = S (inf_line_count m).
Proof.
  destruct (webhook_counts_once settings req env app) as (result & Hin & Hm).
  exists result. cbv zeta. unfold post_webhook, logging_middleware.
  destruct (webhook settings req env app) as [response app'].
  cbn [fst snd metrics status_code] in *. rewrite Hm.
  split_and!; try done.
  by rewrite observe_latency_Inf.
Qed.

(** The handler keeps the primary key: whatever the request, a usable
    table stays usable and duplicate-free. *)
Lemma post_webhook_keeps_pk settings req env app rows :
  storage app = Storage.Ready rows → pk_unique rows →
  ∃ rows',
    storage (post_webhook settings req env app).2 = Storage.Ready rows' ∧
    pk_unique rows'.
Proof.
  intros Hdb Hpk. unfold post_webhook, logging_middleware.
  destruct (webhook settings req env app) as [response app'] eqn:Hw.
  cbn [snd storage]. revert Hw. unfold webhook, webhook_try.
  destruct (webhook_secret settings) as [secret|];
    [destruct (negb (truthy (Some secret)))|];
    [intros [= <- <-]; eauto| |intros [= <- <-]; eauto].
  destruct (signature_rejected _ _ _) as [[]|e];
    [intros [= <- <-]; eauto| |intros [= <- <-]; eauto].
  destruct (parse (Main.body req)) as [message|[]];
    try (intros [= <- <-]; eauto).
  rewrite Hdb.
  destruct (Storage.insert_message _ _ _ _ _ _ _) as [r db] eqn:Hins.
  apply (pk_unique_insert _ _ _ _ _ _ _ _ _ Hpk) in Hins as (rows' & -> & Hpk').
  destruct r as [[success []]|e]; intros [= <- <-]; eauto.
Qed.

(** A request that passes every gate answers 200 and leaves the store as
    [insert_message] left it. *)
Lemma post_webhook_valid settings secret req sig msg env app is_dup db :
  webhook_secret settings = Some secret → secret ≠ "" →
  x_signature req = Some sig → sig ≠ "" →
  verify_signature (Main.body req) sig secret = Ok true →
  parse (Main.body req) = Ok msg →
  Storage.insert_message (storage app)
    (Some (Models.message_id msg)) (Some (Models.from_ msg))
    (Some (Models.to msg)) (Some (Models.ts msg)) (Models.text msg)
    (utcnow env) = (Ok (true, is_dup), db) →
  status_code (post_webhook settings req env app).1 = 200 ∧
  content (post_webhook settings req env app).1 = JObj [("status", JStr "ok")] ∧
  storage (post_webhook settings req env app).2 = db.
Proof.
  intros Hsecret Hne Hx Hs Hv Hp Hins.
  unfold post_webhook, logging_middleware, webhook, webhook_try,
    signature_rejected.
  rewrite Hsecret, Hx, Hv, Hp, Hins.
  destruct secret; [done|]. destruct sig; [done|]. done.
Qed.

(** C1: with the secret configured and a usable store, two POST /webhook
    requests that both carry a non-empty verifying signature and a valid
    payload, with the same [message_id] and possibly different other
    fields, both get 200 with body [{"status": "ok"}], and afterwards the
    table holds exactly one row with that [message_id]. *)
Theorem post_webhook_idempotent
    settings secret req1 req2 sig1 sig2 msg1 msg2 env1 env2 app rows :
  webhook_secret settings = Some secret → secret ≠ "" →
  x_signature req1 = Some sig1 → sig1 ≠ "" →
  verify_signature (Main.body req1) sig1 secret = Ok true →
  x_signature req2 = Some sig2 → sig2 ≠ "" →
  verify_signature (Main.body req2) sig2 secret = Ok true →
  parse (Main.body req1) = Ok msg1 →
  parse (Main.body req2) = Ok msg2 →
  Models.message_id msg1 = Models.message_id msg2 →
  storage app = Storage.Ready rows → pk_unique rows →
  let r1 := post_webhook settings req1 env1 app in
  let r2 := post_webhook settings req2 env2 r1.2 in
  status_code r1.1 = 200 ∧ content r1.1 = JObj [("status", JStr "ok")] ∧
  status_code r2.1 = 200 ∧ content r2.1 = JObj [("status", JStr "ok")] ∧
  ∃ rows2,
    storage r2.2 = Storage.Ready rows2 ∧
    length (rows_with_id (Models.message_id msg1) rows2) = 1%nat.
Proof.
  intros Hsecret Hne Hx1 Hs1 Hv1 Hx2 Hs2 Hv2 Hp1 Hp2 Hid Hdb Hpk. cbv zeta.
  destruct (insert_message_some rows (Models.message_id msg1)
              (Models.from_ msg1) (Models.to msg1) (Models.ts msg1)
              (Models.text msg1) (utcnow env1) Hpk)
    as (dup1 & rows1 & Hins1 & Hpk1 & _).
  rewrite <- Hdb in Hins1.
  destruct (post_webhook_valid _ _ _ _ _ env1 _ _ _
              Hsecret Hne Hx1 Hs1 Hv1 Hp1 Hins1) as (-> & -> & Hdb1).
  destruct (insert_message_some rows1 (Models.message_id msg2)
              (Models.from_ msg2) (Models.to msg2) (Models.ts msg2)
              (Models.text msg2) (utcnow env2) Hpk1)
    as (dup2 & rows2 & Hins2 & _ & Hone).
  rewrite <- Hdb1 in Hins2.
  destruct (post_webhook_valid _ _ _ _ _ env2 _ _ _
              Hsecret Hne Hx2 Hs2 Hv2 Hp2 Hins2) as (-> & -> & Hdb2).
  split_and!; try done. exists rows2. by rewrite Hid.
Qed.

End WebhookFacts.

Lemma post_webhook_idempotent_witness :
  let r1 := @Main.post_webhook sample_library sample_settings
              (signed_request "first")
              (sample_env "0a1b2c3d" "2025-01-15T10:00:01Z") fresh_app in
  let r2 := @Main.post_webhook sample_library sample_settings
              (signed_request "second")
              (sample_env "4e5f6a7b" "2025-01-15T10:00:02Z") r1.2 in
  Main.status_code r1.1 = 200 ∧
  Main.content r1.1 = JObj [("status", JStr "ok")] ∧
  Main.status_code r2.1 = 200 ∧
  Main.content r2.1 = JObj [("status", JStr "ok")] ∧
  ∃ rows2,
    Main.storage r2.2 = Storage.Ready rows2 ∧
    length (rows_with_id "m1" rows2) = 1%nat.
Proof.
  apply (@post_webhook_idempotent sample_library sample_settings "s"
           (signed_request "first") (signed_request "second")
           (hex (encode "s" ++ encode "first")%list)
           (hex (encode "s" ++ encode "second")%list)
           {| Models.message_id := "m1"; Models.from_ := "+1555";
              Models.to := "+1666"; Models.ts := "2025-01-15T10:00:00Z";
              Models.text := Some "hello" |}
           {| Models.message_id := "m1"; Models.from_ := "+1999";
              Models.to := "+1666"; Models.ts := "2025-01-15T10:00:00Z";
              Models.text := Some "hello again" |}
           _ _ fresh_app []);
    first [reflexivity | discriminate | apply pk_unique_init].
Defined.

(** ** The tests of the repository, replayed on the model *)

Section Tests.
Import Storage.

(** [test_filter_by_q_text_search]: the search ignores ASCII case. *)
Example test_filter_by_q_text_search :
  ids_and_total
    (get_messages
       (Ready [ stored "m1" "+919876543210" "2025-01-15T10:00:00Z" (Some "Hello world");
                stored "m2" "+919876543210" "2025-01-15T11:00:00Z" (Some "Goodbye");
                stored "m3" "+919876543210" "2025-01-15T12:00:00Z" (Some "hello again") ])
       50 0 None None (Some "hello"))
  = Ok ([Some "m1"; Some "m3"], 2%nat).
Proof. by vm_compute. Qed.

(** [test_combined_filters] *)
Example test_combined_filters :
  ids_and_total
    (get_messages
       (Ready [ stored "m1" "+919876543210" "2025-01-15T09:00:00Z" (Some "Hello");
                stored "m2" "+919876543210" "2025-01-15T11:00:00Z" (Some "Hello");
                stored "m3" "+919876543211" "2025-01-15T12:00:00Z" (Some "Hello") ])
       50 0 (Some "+919876543210") (Some "2025-01-15T10:00:00Z") (Some "Hello"))
  = Ok ([Some "m2"], 1%nat).
Proof. by vm_compute. Qed.

(** [test_offset_parameter] *)
Example test_offset_parameter :
  ids_and_total
    (get_messages
       (Ready ((λ n : nat,
                  stored ("msg" +:+ pretty n) "+919876543210"
                    ("2025-01-15T1" +:+ pretty n +:+ ":00:00Z") None) <$> seq 0 5))
       2 2 None None None)
  = Ok ([Some "msg2"; Some "msg3"], 5%nat).
Proof. by vm_compute. Qed.

(** [test_messages_per_sender_sorted_by_count] and
    [test_first_and_last_message_timestamps] *)
Example test_messages_per_sender_sorted_by_count :
  get_stats
    (Ready ([ stored "ma0" "+919876543210" "2025-01-15T10:00:00Z" None;
              stored "ma1" "+919876543210" "2025-01-15T10:01:00Z" None;
              stored "ma2" "+919876543210" "2025-01-15T10:02:00Z" None;
              stored "mb0" "+919876543211" "2025-01-15T11:00:00Z" None;
              stored "mb1" "+919876543211" "2025-01-15T11:01:00Z" None;
              stored "mb2" "+919876543211" "2025-01-15T11:02:00Z" None;
              stored "mb3" "+919876543211" "2025-01-15T11:03:00Z" None;
              stored "mb4" "+919876543211" "2025-01-15T11:04:00Z" None;
              stored "mc0" "+919876543212" "2025-01-15T12:00:00Z" None ]))
  = Ok {| total_messages := 9;
          senders_count := 3;
          messages_per_sender :=
            [ {| from_ := "+919876543211"; count := 5 |};
              {| from_ := "+919876543210"; count := 3 |};
              {| from_ := "+919876543212"; count := 1 |} ];
          first_message_ts := Some "2025-01-15T10:00:00Z";
          last_message_ts := Some "2025-01-15T12:00:00Z" |}.
Proof. by vm_compute. Qed.

(** [test_empty_database_stats] *)
Example test_empty_database_stats :
  get_stats init_db
  = Ok {| total_messages := 0; senders_count := 0; messages_per_sender := [];
          first_message_ts := None; last_message_ts := None |}.
Proof. reflexivity. Qed.

(** [test_invalid_from_format_returns_422] and
    [test_invalid_ts_format_returns_422], at the validator. *)
Example test_invalid_formats :
  Models.E164_PATTERN "+919876543210" = true ∧
  Models.E164_PATTERN "9876543210" = false ∧
  Models.ISO8601_UTC_PATTERN "2025-01-15T10:00:00Z" = true ∧
  Models.ISO8601_UTC_PATTERN "2025-01-15 10:00:00" = false.
Proof. by vm_compute. Qed.

(** Not in the tests: [$] also matches before a final newline, so a
    number followed by one newline passes the E.164 check. *)
Example e164_trailing_newline :
  Models.E164_PATTERN ("+14155550100" +:+ String Models.newline "") = true ∧
  Models.E164_PATTERN ("+14155550100" +:+ " ") = false.
Proof. by vm_compute. Qed.

(** [test_missing_signature_returns_401] and
    [test_invalid_signature_returns_401] *)
Example test_invalid_signature_returns_401 :
  let no_header := {| Main.path := "/webhook"; Main.body := encode "first";
                      Main.x_signature := None |} in
  let bad_header := {| Main.path := "/webhook"; Main.body := encode "first";
                       Main.x_signature := Some "invalid123" |} in
  let env := sample_env "0a1b2c3d" "2025-01-15T10:00:01Z" in
  let r1 := @Main.webhook sample_library sample_settings no_header env fresh_app in
  let r2 := @Main.webhook sample_library sample_settings bad_header env fresh_app in
  (Main.status_code r1.1, Main.content r1.1) =
    (401, Main.detail (JStr "invalid signature")) ∧
  (Main.status_code r2.1, Main.content r2.1) =
    (401, Main.detail (JStr "invalid signature")).
Proof. by vm_compute. Qed.

End Tests.

(** * Further properties of the code *)

(** ** The collector under any interleaving of calls *)

Section CollectorFacts.
Import Metrics.

Lemma counter_incr `{Countable K} (d : gmap K nat) (k k' : K) :
  counter (incr k d) k' = (counter d k' + if decide (k = k') then 1 else 0)%nat.
Proof.
  unfold counter, incr. rewrite lookup_insert.
  case_decide; simplify_eq; simpl; lia.
Qed.

Lemma count_if_snoc {A} (f : A → bool) l x :
  count_if f (l ++ [x]) = (count_if f l + if f x then 1 else 0)%nat.
Proof.
  unfold count_if. rewrite filter_app, length_app, filter_cons, filter_nil.
  by destruct (f x).
Qed.

Lemma run_ops_snoc ops o m : run_ops (ops ++ [o]) m = apply_op (run_ops ops m) o.
Proof. unfold run_ops. by rewrite foldl_app. Qed.

(** X1: whatever calls are made on a fresh collector and in whatever
    order, each metric shows exactly the number of its own calls: a
    webhook-result counter the increments of its label, an HTTP counter
    the increments of its (path, status), and the observation count and
    the [+Inf] bucket the number of observations. *)
Theorem collector_counts_its_calls ops :
  let m := run_ops ops init in
  (∀ result, counter (_webhook_requests m) result = count_if (is_inc_webhook result) ops) ∧
  (∀ path status,
     counter (_http_requests m) (path, status) = count_if (is_inc_http path status) ops) ∧
  _latency_count m = count_if is_observe ops ∧
  inf_line_count m = count_if is_observe ops.
Proof.
  cbv zeta. induction ops as [|o ops IH] using rev_ind.
  { split_and!; try done; intros; apply lookup_empty. }
  destruct IH as (Hw & Hh & Hc & Hi).
  rewrite run_ops_snoc. split_and!; intros; rewrite ?count_if_snoc.
  - destruct o as [p s|r|x]; cbn [apply_op is_inc_webhook].
    + rewrite <- Hw. simpl. lia.
    + cbn [inc_webhook_requests _webhook_requests]. rewrite counter_incr, Hw.
      f_equal. by repeat case_decide; case_bool_decide.
    + rewrite <- Hw. simpl. lia.
  - destruct o as [p s|r|x]; cbn [apply_op is_inc_http].
    + cbn [inc_http_requests _http_requests]. rewrite counter_incr, Hh.
      f_equal. case_decide as Hk; case_bool_decide as Hb; try done.
      * exfalso. apply Hb. by inversion Hk.
      * exfalso. apply Hk. by destruct Hb as [-> ->].
    + rewrite <- Hh. simpl. lia.
    + rewrite <- Hh. simpl. lia.
  - destruct o as [p s|r|x]; cbn [apply_op is_observe]; rewrite <- Hc; simpl; lia.
  - destruct o as [p s|r|x]; cbn [apply_op is_observe].
    + rewrite <- Hi. unfold inf_line_count. simpl. lia.
    + rewrite <- Hi. unfold inf_line_count. simpl. lia.
    + rewrite observe_latency_Inf, Hi. lia.
Qed.

End CollectorFacts.

(** ** The counter lines of the rendered text *)

Section CounterLines.
Import Metrics.
Context `{Library}.

Local Instance webhook_item_le_total : Total webhook_item_le.
Proof. intros a b. apply (total String.le). Qed.

Local Instance webhook_item_le_trans : Transitive webhook_item_le.
Proof. intros a b c. apply (transitivity (R:=String.le)). Qed.

Local Instance http_item_le_total : Total http_item_le.
Proof.
  intros [[p1 s1] n1] [[p2 s2] n2]. simpl.
  destruct (decide (p1 = p2)) as [->|Hne].
  - rewrite decide_True by done. lia.
  - rewrite (decide_False (P:=p2 = p1)) by congruence. apply (total String.le).
Qed.

Local Instance http_item_le_trans : Transitive http_item_le.
Proof.
  intros [[p1 s1] n1] [[p2 s2] n2] [[p3 s3] n3]. simpl.
  destruct (decide (p1 = p2)) as [E12|N12];
    destruct (decide (p2 = p3)) as [E23|N23];
    destruct (decide (p1 = p3)) as [E13|N13];
    try congruence; intros H12 H23.
  - lia.
  - exfalso. apply N12. apply (anti_symm String.le); [done|by rewrite E13].
  - by etrans.
Qed.

(** A sorted list with distinct keys is strictly sorted. *)
Lemma StronglySorted_strict {A B} (R : relation A) (f : A → B) l :
  StronglySorted R l → NoDup (f <$> l) →
  StronglySorted (λ a b, R a b ∧ f a ≠ f b) l.
Proof.
  induction 1 as [|a l Hl IH Ha]; [constructor|].
  rewrite fmap_cons. intros [Hnot Hnd]%NoDup_cons.
  constructor; [auto|]. apply Forall_forall. intros b Hb. split.
  - by eapply Forall_forall in Ha.
  - intros Heq. apply Hnot. rewrite Heq. by apply list_elem_of_fmap_2.
Qed.

(** X2: [format_prometheus] prints the two counter families after their
    headers, one line per key that was ever incremented, with the value of
    that key, in strictly ascending key order: (path, status) for
    [http_requests_total], the label for [webhook_requests_total]. *)
Theorem format_prometheus_counter_lines m :
  ∃ http_items webhook_items rest,
    format_prometheus_lines m =
      ([ "# HELP http_requests_total Total HTTP requests";
         "# TYPE http_requests_total counter" ] ++
       (http_line <$> http_items) ++
       [ "";
         "# HELP webhook_requests_total Total webhook requests by result";
         "# TYPE webhook_requests_total counter" ] ++
       (webhook_line <$> webhook_items) ++ rest)%list ∧
    StronglySorted http_key_lt http_items ∧
    (∀ k n, (k, n) ∈ http_items ↔ _http_requests m !! k = Some n) ∧
    StronglySorted label_lt webhook_items ∧
    (∀ r n, (r, n) ∈ webhook_items ↔ _webhook_requests m !! r = Some n).
Proof.
  eexists (merge_sort http_item_le (map_to_list (_http_requests m))),
          (merge_sort webhook_item_le (map_to_list (_webhook_requests m))), _.
  split_and!.
  - reflexivity.
  - apply (StronglySorted_strict http_item_le fst).
    + apply (StronglySorted_merge_sort _).
    + rewrite merge_sort_Permutation. apply NoDup_fst_map_to_list.
  - intros k n. by rewrite merge_sort_Permutation, elem_of_map_to_list.
  - apply (StronglySorted_strict webhook_item_le fst).
    + apply (StronglySorted_merge_sort _).
    + rewrite merge_sort_Permutation. apply NoDup_fst_map_to_list.
  - intros r n. by rewrite merge_sort_Permutation, elem_of_map_to_list.
Qed.

End CounterLines.

(** ** Pages of a query *)

Section PageFacts.
Import Storage.

Lemma limit_offset_length {A} limit offset (l : list A) :
  length (limit_offset limit offset l) =
    if bool_decide (limit < 0) then (length l - Z.to_nat offset)%nat
    else (Z.to_nat limit `min` (length l - Z.to_nat offset))%nat.
Proof.
  unfold limit_offset. case_bool_decide.
  - by rewrite length_drop.
  - by rewrite length_take, length_drop.
Qed.

(** X3: a page that [get_messages] returns holds the rows of the ordered
    result from position [offset] on, [limit] of them at most: its length
    is [min(limit, total - offset)] (all of [total - offset] for a negative
    limit, which SQLite reads as no limit; a negative offset counts
    as 0). *)
Theorem get_messages_page_length
    rows limit offset from_filter since q page total :
  get_messages (Ready rows) limit offset from_filter since q = Ok (page, total) →
  length page =
    if bool_decide (limit < 0) then (total - Z.to_nat offset)%nat
    else (Z.to_nat limit `min` (total - Z.to_nat offset))%nat.
Proof.
  unfold get_messages. cbv zeta. intros [= <- <-].
  rewrite length_fmap, limit_offset_length.
  by rewrite (Permutation_length (merge_sort_Permutation order_by _)).
Qed.

(** The sample table from the second row on, three rows at most. *)
Lemma get_messages_page_length_witness :
  ∃ page total,
    get_messages (Ready sample_rows) 3 1 None None None = Ok (page, total) ∧
    length page =
      if bool_decide (3 < 0) then (total - Z.to_nat 1)%nat
      else (Z.to_nat 3 `min` (total - Z.to_nat 1))%nat.
Proof.
  eexists _, _. split; [reflexivity|].
  by apply (get_messages_page_length sample_rows 3 1 None None None).
Defined.

Lemma limit_offset_app {A} l1 l2 o (l : list A) :
  0 ≤ l1 → 0 ≤ l2 → 0 ≤ o →
  (limit_offset l1 o l ++ limit_offset l2 (o + l1) l)%list =
    limit_offset (l1 + l2) o l.
Proof.
  intros H1 H2 Ho. unfold limit_offset.
  rewrite !bool_decide_eq_false_2 by lia.
  rewrite Z2Nat.inj_add, <- drop_drop by lia.
  rewrite Z2Nat.inj_add by lia. apply take_take_drop.
Qed.

(** X4: consecutive pages tile the result: when the page of [limit1] rows
    at [offset], the page of [limit2] rows at [offset + limit1] and the
    page of [limit1 + limit2] rows at [offset] are returned, the third is
    the first followed by the second; no row is skipped or repeated at a
    page boundary, and the total is the same on all three. *)
Theorem get_messages_consecutive_pages
    rows limit1 limit2 offset from_filter since q
    page1 total1 page2 total2 page total :
  0 ≤ limit1 → 0 ≤ limit2 → 0 ≤ offset →
  get_messages (Ready rows) limit1 offset from_filter since q
    = Ok (page1, total1) →
  get_messages (Ready rows) limit2 (offset + limit1) from_filter since q
    = Ok (page2, total2) →
  get_messages (Ready rows) (limit1 + limit2) offset from_filter since q
    = Ok (page, total) →
  page = (page1 ++ page2)%list ∧ total1 = total ∧ total2 = total.
Proof.
  intros H1 H2 Ho. unfold get_messages. cbv zeta.
  intros [= <- <-] [= <- <-] [= <- <-]. split; [|done].
  by rewrite <- fmap_app, limit_offset_app.
Qed.

(** The sample table in pages of one and three. *)
Lemma get_messages_consecutive_pages_witness :
  (0 ≤ 1 ∧ 0 ≤ 3 ∧ 0 ≤ 0) ∧
  ∃ page1 page2 page total,
    get_messages (Ready sample_rows) 1 0 None None None = Ok (page1, total) ∧
    get_messages (Ready sample_rows) 3 (0 + 1) None None None = Ok (page2, total) ∧
    get_messages (Ready sample_rows) (1 + 3) 0 None None None = Ok (page, total) ∧
    page = (page1 ++ page2)%list.
Proof.
  split; [lia|]. eexists _, _, _, _.
  split; [reflexivity|]. split; [reflexivity|]. split; [reflexivity|].
  by apply (get_messages_consecutive_pages sample_rows 1 3 0 None None None
              _ _ _ _ _ _ ltac:(lia) ltac:(lia) ltac:(lia) eq_refl eq_refl eq_refl).
Defined.

Lemma limit_offset_sublist {A} limit offset (l : list A) :
  limit_offset limit offset l `sublist_of` l.
Proof.
  unfold limit_offset. case_bool_decide.
  - apply sublist_drop.
  - etrans; [apply sublist_take|apply sublist_drop].
Qed.

Lemma limit_offset_all {A} limit offset (l : list A) :
  offset ≤ 0 → limit < 0 ∨ Z.of_nat (length l) ≤ limit →
  limit_offset limit offset l = l.
Proof.
  intros Ho Hl. unfold limit_offset.
  replace (Z.to_nat offset) with 0%nat by lia. rewrite drop_0.
  case_bool_decide; [done|]. apply take_ge. lia.
Qed.



End PageFacts.

(** ** The text filter on plain search words *)

Section LikeFacts.
Import Storage.

Lemma like_any p t :
  like (String "%" p) t =
    like p t || match t with
                | "" => false
                | String _ t' => like (String "%" p) t'
                end.
Proof. by destruct t. Qed.

Lemma like_literal c p d t :
  c ≠ "%"%char → c ≠ "_"%char →
  like (String c p) (String d t) = bool_decide (tolower c = tolower d) && like p t.
Proof.
  intros H1 H2. cbn [like].
  by rewrite !bool_decide_eq_false_2 by done.
Qed.

Lemma like_literal_empty c p : c ≠ "%"%char → like (String c p) "" = false.
Proof. intros H1. cbn [like]. by rewrite bool_decide_eq_false_2 by done. Qed.

Lemma no_wildcard_cons c q :
  no_wildcard (String c q) = true →
  c ≠ "%"%char ∧ c ≠ "_"%char ∧ no_wildcard q = true.
Proof.
  cbn [no_wildcard]. rewrite !andb_true_iff, !negb_true_iff.
  intros [[H1 H2] H3]. split_and!; [by eapply bool_decide_eq_false_1..|done].
Qed.

(** A plain word followed by [%] matches the strings that start with it,
    case folded. *)
Lemma like_prefix q t :
  no_wildcard q = true →
  like (q +:+ "%") t = String.prefix (lower q) (lower t).
Proof.
  revert t. induction q as [|c q IH]; intros t Hq.
  { rewrite like_percent. by destruct t. }
  apply no_wildcard_cons in Hq as (H1 & H2 & Hq).
  change (String c q +:+ "%") with (String c (q +:+ "%")).
  destruct t as [|d t]; cbn [lower String.prefix].
  - by rewrite like_literal_empty.
  - rewrite like_literal, IH by done.
    destruct (ascii_dec (tolower c) (tolower d)) as [Heq|Hne].
    + by rewrite bool_decide_eq_true_2.
    + by rewrite bool_decide_eq_false_2.
Qed.

Lemma like_contains q t :
  no_wildcard q = true →
  like ("%" +:+ q +:+ "%") t = contains (lower q) (lower t).
Proof.
  intros Hq. change ("%" +:+ q +:+ "%") with (String "%" (q +:+ "%")).
  induction t as [|d t IH]; rewrite like_any, like_prefix by done.
  - done.
  - by rewrite IH.
Qed.

(** X6: for a search word [q] without [%] and [_], the [q] filter selects
    exactly the rows whose text contains [q] as a substring when ASCII
    letters are compared without regard to case; a row without text is
    never selected.  This is for the operands SQLite's LIKE reads as they
    are: a pattern within its limit of 50000 bytes, and no U+0000 in [q] or
    in the text. *)
Theorem text_filter_plain_word q r :
  q ≠ "" → no_wildcard q = true →
  no_nul q = true → pattern_bytes q ≤ 50000 →
  (∀ t, text r = Some t → no_nul t = true) →
  where_clause (conditions None None (Some q)) r =
    match text r with
    | Some t => contains (lower q) (lower t)
    | None => false
    end.
Proof.
  intros Hne Hq _ _ _. unfold where_clause, conditions, when.
  destruct q as [|c q]; [done|]. cbn [truthy app forallb].
  rewrite andb_true_r. destruct (text r); [|done]. by apply like_contains.
Qed.

(** [test_filter_by_q_text_search]: "hello" finds "Hello world". *)
Lemma text_filter_plain_word_witness :
  ("hello" ≠ "" ∧ no_wildcard "hello" = true ∧ no_nul "hello" = true ∧
   pattern_bytes "hello" ≤ 50000 ∧ no_nul "Hello world" = true) ∧
  where_clause (conditions None None (Some "hello"))
    (stored "m1" "+919876543210" "2025-01-15T10:00:00Z" (Some "Hello world"))
  = contains "hello" "hello world".
Proof.
  split; [by split_and!|].
  apply (text_filter_plain_word "hello"
           (stored "m1" "+919876543210" "2025-01-15T10:00:00Z" (Some "Hello world")));
    [done|done|done|done|].
  by intros t [= <-].
Defined.

End LikeFacts.

(** ** Insert, then query *)

Section RoundTrip.
Import Storage.



End RoundTrip.

(** ** More on the statistics *)

Section StatsMore.
Import Storage.

Local Open Scope nat_scope.

Local Instance count_desc_total : Total count_desc.
Proof. intros a b. unfold count_desc. lia. Qed.

Local Instance count_desc_trans : Transitive count_desc.
Proof. intros a b c. unfold count_desc. lia. Qed.

Lemma group_by_sender_elem g rows :
  g ∈ group_by_sender rows ↔
  from_ g ∈ from_msisdn <$> rows ∧ count g = count_from rows (from_ g).
Proof.
  unfold group_by_sender. rewrite list_elem_of_fmap. split.
  - intros (s & -> & Hs). rewrite merge_sort_Permutation in Hs.
    unfold senders in Hs. rewrite elem_of_remove_dups in Hs. by split.
  - intros [Hs Hc]. exists (from_ g). split.
    + destruct g as [s n]. simpl in *. by rewrite Hc.
    + rewrite merge_sort_Permutation. unfold senders.
      by rewrite elem_of_remove_dups.
Qed.

Lemma group_by_sender_NoDup rows : NoDup (from_ <$> group_by_sender rows).
Proof.
  unfold group_by_sender.
  assert (∀ l : list string,
            from_ <$> ((λ s, {| from_ := s;
                                count := length (filter (λ r, from_msisdn r = s) rows) |})
                       <$> l) = l) as ->.
  { induction l as [|s l IH]; csimpl; by f_equal. }
  rewrite merge_sort_Permutation. apply NoDup_remove_dups.
Qed.

(** X8: [messages_per_sender] is a top-ten list.  It has
    [min(10, senders_count)] entries, ordered by count descending, no
    sender twice; each entry carries the number of rows of its sender,
    which is at least 1; and a sender that is not listed has no more rows
    than any sender that is. *)
Theorem get_stats_top_senders rows stats :
  get_stats (Ready rows) = Ok stats →
  length (messages_per_sender stats) = 10 `min` senders_count stats ∧
  StronglySorted count_desc (messages_per_sender stats) ∧
  NoDup (from_ <$> messages_per_sender stats) ∧
  (∀ g, g ∈ messages_per_sender stats →
     from_ g ∈ from_msisdn <$> rows ∧
     count g = count_from rows (from_ g) ∧ 1 ≤ count g) ∧
  (∀ s, s ∈ from_msisdn <$> rows →
     s ∈ from_ <$> messages_per_sender stats ∨
     ∀ g, g ∈ messages_per_sender stats → count_from rows s ≤ count g).
Proof.
  intros [= <-]. cbn [messages_per_sender senders_count].
  set (sorted := merge_sort count_desc (group_by_sender rows)).
  assert (sorted ≡ₚ group_by_sender rows) as Hperm
    by apply merge_sort_Permutation.
  assert (StronglySorted count_desc sorted) as Hsorted
    by apply (StronglySorted_merge_sort _).
  rewrite <- (take_drop 10 sorted) in Hsorted.
  assert (take 10 sorted `sublist_of` sorted) as Hsub by apply sublist_take.
  split_and!.
  - by rewrite length_take, Hperm, group_by_sender_length.
  - by apply StronglySorted_app_1_l in Hsorted.
  - rewrite fmap_take.
    apply (sublist_NoDup _ (from_ <$> sorted)); [|apply sublist_take].
    rewrite Hperm. apply group_by_sender_NoDup.
  - intros g Hg. eapply elem_of_sublist in Hg; [|done]. rewrite Hperm in Hg.
    pose proof (group_by_sender_positive rows) as Hpos.
    rewrite Forall_forall in Hpos. specialize (Hpos g Hg).
    apply group_by_sender_elem in Hg as [? ?]. done.
  - intros s Hs.
    assert ({| from_ := s; count := count_from rows s |} ∈ sorted) as Hg.
    { rewrite Hperm. by apply group_by_sender_elem. }
    rewrite <- (take_drop 10 sorted) in Hg.
    apply elem_of_app in Hg as [Hg|Hg].
    + left. apply list_elem_of_fmap. by eexists; split; [|exact Hg].
    + right. intros g Hin.
      by apply (StronglySorted_app_1_elem_of _ _ _ _ _ Hsorted Hin Hg).
Qed.

Lemma get_stats_top_senders_witness :
  ∃ stats,
    get_stats (Ready eleven_senders) = Ok stats ∧
    senders_count stats = 11 ∧
    length (messages_per_sender stats) = 10.
Proof.
  eexists. split; [reflexivity|]. split; [reflexivity|].
  destruct (get_stats_top_senders eleven_senders _ eq_refl) as (Hlen & _).
  rewrite Hlen. reflexivity.
Defined.

Lemma remove_dups_length `{EqDecision A} (l : list A) :
  length (remove_dups l) ≤ length l.
Proof. induction l as [|x l IH]; simpl; [done|]. case_decide; simpl; lia. Qed.

Lemma aggregate_min x l :
  foldl str_min x l ∈ x :: l ∧
  ∀ y, y ∈ x :: l → String.le (foldl str_min x l) y.
Proof.
  revert x. induction l as [|z l IH]; intros x; simpl.
  { split; [by left|]. by intros y ->%list_elem_of_singleton. }
  destruct (IH (str_min x z)) as [Hin Hle]. unfold str_min in *.
  destruct (String.leb x z) eqn:Hxz.
  - split.
    + apply elem_of_cons in Hin as [->|Hin]; [by left|by do 2 right].
    + intros y [->|[->|Hy]%elem_of_cons]%elem_of_cons.
      * apply Hle. by left.
      * etrans; [apply Hle; by left|]. by apply Is_true_true.
      * apply Hle. by right.
  - assert (String.le z x) as Hzx.
    { destruct (total String.le x z) as [H|H]; [|done].
      apply Is_true_true in H. unfold String.le in *. congruence. }
    split.
    + apply elem_of_cons in Hin as [->|Hin]; [right; by left|by do 2 right].
    + intros y [->|[->|Hy]%elem_of_cons]%elem_of_cons.
      * etrans; [apply Hle; by left|done].
      * apply Hle. by left.
      * apply Hle. by right.
Qed.

Lemma aggregate_max x l :
  foldl str_max x l ∈ x :: l ∧
  ∀ y, y ∈ x :: l → String.le y (foldl str_max x l).
Proof.
  revert x. induction l as [|z l IH]; intros x; simpl.
  { split; [by left|]. by intros y ->%list_elem_of_singleton. }
  destruct (IH (str_max x z)) as [Hin Hle]. unfold str_max in *.
  destruct (String.leb x z) eqn:Hxz.
  - split.
    + apply elem_of_cons in Hin as [->|Hin]; [right; by left|by do 2 right].
    + intros y [->|[->|Hy]%elem_of_cons]%elem_of_cons.
      * etrans; [|apply Hle; by left]. by apply Is_true_true.
      * apply Hle. by left.
      * apply Hle. by right.
  - assert (String.le z x) as Hzx.
    { destruct (total String.le x z) as [H|H]; [|done].
      apply Is_true_true in H. unfold String.le in *. congruence. }
    split.
    + apply elem_of_cons in Hin as [->|Hin]; [by left|by do 2 right].
    + intros y [->|[->|Hy]%elem_of_cons]%elem_of_cons.
      * apply Hle. by left.
      * etrans; [done|apply Hle; by left].
      * apply Hle. by right.
Qed.

(** X9: [first_message_ts] and [last_message_ts] are the least and the
    greatest stored [ts], both taken from the table, and are [None]
    exactly on an empty table; [senders_count] is at most
    [total_messages] and is 0 only on an empty table. *)
Theorem get_stats_first_last rows stats :
  get_stats (Ready rows) = Ok stats →
  senders_count stats ≤ total_messages stats ∧
  (senders_count stats = 0 ↔ rows = []) ∧
  (first_message_ts stats = None ↔ rows = []) ∧
  (last_message_ts stats = None ↔ rows = []) ∧
  (∀ a, first_message_ts stats = Some a →
     a ∈ ts <$> rows ∧ ∀ r, r ∈ rows → String.le a (ts r)) ∧
  (∀ b, last_message_ts stats = Some b →
     b ∈ ts <$> rows ∧ ∀ r, r ∈ rows → String.le (ts r) b).
Proof.
  intros [= <-].
  cbn [senders_count total_messages first_message_ts last_message_ts].
  split_and!.
  - unfold senders. etrans; [apply remove_dups_length|]. by rewrite length_fmap.
  - unfold senders. destruct rows as [|r rows]; [done|]. split; [|done].
    intros Hlen. apply nil_length_inv in Hlen.
    assert (from_msisdn r ∈ remove_dups (from_msisdn <$> r :: rows)) as Hin.
    { apply elem_of_remove_dups. by left. }
    rewrite Hlen in Hin. by apply elem_of_nil in Hin.
  - by destruct rows.
  - by destruct rows.
  - destruct rows as [|r0 rows]; [done|]. intros a [= <-].
    destruct (aggregate_min (ts r0) (ts <$> rows)) as [Hin Hle].
    split; [done|]. intros r Hr. apply Hle.
    change (ts r0 :: (ts <$> rows)) with (ts <$> r0 :: rows).
    by apply list_elem_of_fmap_2.
  - destruct rows as [|r0 rows]; [done|]. intros b [= <-].
    destruct (aggregate_max (ts r0) (ts <$> rows)) as [Hin Hle].
    split; [done|]. intros r Hr. apply Hle.
    change (ts r0 :: (ts <$> rows)) with (ts <$> r0 :: rows).
    by apply list_elem_of_fmap_2.
Qed.

Lemma get_stats_first_last_witness :
  ∃ stats,
    get_stats (Ready sample_rows) = Ok stats ∧
    first_message_ts stats = Some "2025-01-15T10:00:00Z" ∧
    last_message_ts stats = Some "2025-01-15T12:00:00Z" ∧
    senders_count stats ≤ total_messages stats.
Proof.
  eexists. split; [reflexivity|]. split; [reflexivity|]. split; [reflexivity|].
  by destruct (get_stats_first_last sample_rows _ eq_refl) as (Hle & _).
Defined.

End StatsMore.

(** ** What the handler writes *)

Section HandlerFacts.
Import Main.
Context `{Library}.

Ltac in_outcomes := first [by left | right; in_outcomes].

Lemma signature_accepted body x_signature secret :
  signature_rejected body x_signature secret = Ok false →
  ∃ sig, x_signature = Some sig ∧ sig ≠ "" ∧
         verify_signature body sig secret = Ok true.
Proof.
  unfold signature_rejected. destruct x_signature as [sig|]; [|done].
  destruct sig as [|c sig]; [done|]. cbn [truthy negb].
  destruct (verify_signature _ _ _) as [[]|e] eqn:Hv; try done.
  intros _. by eexists.
Qed.

(** One request through the handler: the outcome it counts, and the only
    way the store changes. *)
Lemma webhook_step settings req env app :
  ∃ result,
    (status_code (webhook settings req env app).1, result) ∈ outcomes ∧
    metrics (webhook settings req env app).2 =
      Metrics.inc_webhook_requests result (metrics app) ∧
    ((result ≠ "created" ∧
      storage (webhook settings req env app).2 = storage app) ∨
     (result = "created" ∧
      status_code (webhook settings req env app).1 = 200 ∧
      ∃ secret sig msg rows,
        webhook_secret settings = Some secret ∧ secret ≠ "" ∧
        x_signature req = Some sig ∧ sig ≠ "" ∧
        verify_signature (Main.body req) sig secret = Ok true ∧
        parse (Main.body req) = Ok msg ∧
        storage app = Storage.Ready rows ∧
        Storage.has_id (Models.message_id msg) rows = false ∧
        storage (webhook settings req env app).2 =
          Storage.Ready (rows ++ [row_of msg (utcnow env)]))).
Proof.
  unfold webhook, webhook_try.
  destruct (webhook_secret settings) as [secret|] eqn:Hsecret;
    [destruct (negb (truthy (Some secret))) eqn:Htruthy|];
    [exists "server_error"; split_and!; [in_outcomes|done|by left]| |
     exists "server_error"; split_and!; [in_outcomes|done|by left]].
  destruct (signature_rejected _ _ _) as [[]|e] eqn:Hsig;
    [exists "invalid_signature"; split_and!; [in_outcomes|done|by left]| |
     exists "server_error"; split_and!; [in_outcomes|done|by left]].
  apply signature_accepted in Hsig as (sig & Hx & Hne & Hv).
  destruct (parse (Main.body req)) as [msg|[]] eqn:Hparse;
    try (exists "server_error"; split_and!; [in_outcomes|done|by left]);
    try (exists "validation_error"; split_and!; [in_outcomes|done|by left]).
  unfold Storage.insert_message.
  destruct (storage app) as [fl|rows] eqn:Hdb.
  { exists "server_error"; split_and!; [in_outcomes|done|by left]. }
  unfold Storage.execute_insert.
  destruct (Storage.has_id (Models.message_id msg) rows) eqn:Hid.
  - exists "duplicate"; split_and!; [in_outcomes|done|by left].
  - exists "created"; split_and!; [in_outcomes|done|]. right.
    split_and!; [done..|]. exists secret, sig, msg, rows.
    split_and!; try done. by destruct secret.
Qed.

(** X10: POST /webhook changes the store in one case, and always in that
    case: when the secret is configured, the request carries a non-empty
    signature that verifies, its body parses to a valid message and the
    store is usable and holds no row with the id of the message, the answer
    is 200 with status ok and exactly the row of that message, stamped
    with the server's clock, is appended.  Unless all of this holds (401,
    422, 500, 503, and 200 for a duplicate) the store is left as it
    was. *)
Theorem post_webhook_store_change settings req env app :
  (∀ secret sig msg rows,
     webhook_secret settings = Some secret → secret ≠ "" →
     x_signature req = Some sig → sig ≠ "" →
     verify_signature (Main.body req) sig secret = Ok true →
     parse (Main.body req) = Ok msg →
     storage app = Storage.Ready rows →
     rows_with_id (Models.message_id msg) rows = [] →
     status_code (post_webhook settings req env app).1 = 200 ∧
     content (post_webhook settings req env app).1 = JObj [("status", JStr "ok")] ∧
     storage (post_webhook settings req env app).2 =
       Storage.Ready (rows ++ [row_of msg (utcnow env)])) ∧
  (storage (post_webhook settings req env app).2 = storage app ∨
   ∃ secret sig msg rows,
     webhook_secret settings = Some secret ∧ secret ≠ "" ∧
     x_signature req = Some sig ∧ sig ≠ "" ∧
     verify_signature (Main.body req) sig secret = Ok true ∧
     parse (Main.body req) = Ok msg ∧
     storage app = Storage.Ready rows ∧
     rows_with_id (Models.message_id msg) rows = []).
Proof.
  split.
  - intros secret sig msg rows Hsecret Hne Hx Hs Hv Hparse Hdb Hid.
    assert (Storage.has_id (Models.message_id msg) rows = false) as Hfresh.
    { apply bool_decide_eq_false_2. intros (r & Hr & Hin)%list_elem_of_fmap.
      assert (r ∈ rows_with_id (Models.message_id msg) rows) as Hr'
        by by apply list_elem_of_filter.
      rewrite Hid in Hr'. by apply elem_of_nil in Hr'. }
    unfold post_webhook, logging_middleware, webhook, webhook_try,
      signature_rejected, Storage.insert_message, Storage.execute_insert.
    rewrite Hsecret, Hx, Hv, Hparse, Hdb, Hfresh.
    destruct secret; [done|]. destruct sig; [done|]. done.
  - destruct (webhook_step settings req env app)
      as (result & _ & _ & [[_ Hsame]|(_ & Hst & secret & sig & msg & rows & Hrest)]).
    + left. unfold post_webhook, logging_middleware.
      by destruct (webhook settings req env app).
    + right. destruct Hrest as (? & ? & ? & ? & ? & ? & ? & Hid & ?).
      exists secret, sig, msg, rows. split_and!; try done.
      by apply has_id_false.
Qed.

End HandlerFacts.

(** A first, correctly signed message on an empty store. *)
Lemma post_webhook_store_change_witness :
  let r := @Main.post_webhook sample_library sample_settings
             (signed_request "first")
             (sample_env "0a1b2c3d" "2025-01-15T10:00:01Z") fresh_app in
  Main.status_code r.1 = 200 ∧
  ∃ row, Main.storage r.2 = Storage.Ready [row] ∧
         Storage.message_id row = Some "m1" ∧
         Storage.created_at row = "2025-01-15T10:00:01Z".
Proof.
  destruct (proj1 (@post_webhook_store_change sample_library sample_settings
                     (signed_request "first")
                     (sample_env "0a1b2c3d" "2025-01-15T10:00:01Z") fresh_app)
              "s" (hex (encode "s" ++ encode "first")%list)
              {| Models.message_id := "m1"; Models.from_ := "+1555";
                 Models.to := "+1666"; Models.ts := "2025-01-15T10:00:00Z";
                 Models.text := Some "hello" |} [])
    as (Hstatus & _ & Hstore);
    [reflexivity|discriminate|reflexivity|discriminate|reflexivity|reflexivity|
     reflexivity|reflexivity|].
  split; [exact Hstatus|]. eexists. split; [exact Hstore|]. by split.
Defined.

(** ** The validator *)

Section ValidatorFacts.
Import Models.
Context `{Library}.

Lemma after_inr loc f r s' :
  after loc f r = inr s' → ∃ s, r = inr s ∧ f s = inr s'.
Proof.
  unfold after. destruct r as [e|s]; [done|].
  destruct (f s) as [m|s''] eqn:Hf; [done|]. intros [= <-]. eauto.
Qed.

Lemma validate_e164_inr name v v' :
  validate_e164 name v = inr v' → v' = v ∧ E164_PATTERN v = true.
Proof.
  unfold validate_e164. destruct (E164_PATTERN v); [|done]. by intros [= <-].
Qed.

Lemma validate_iso8601_utc_inr v v' :
  validate_iso8601_utc v = inr v' →
  v' = v ∧ ISO8601_UTC_PATTERN v = true ∧ fromisoformat_ok (replace_Z v) = true.
Proof.
  unfold validate_iso8601_utc. destruct (ISO8601_UTC_PATTERN v); [|done].
  destruct (fromisoformat_ok (replace_Z v)); [|done]. by intros [= <-].
Qed.

Lemma field_message_id_inr fields i : field_message_id fields = inr i → i ≠ "".
Proof.
  unfold field_message_id.
  destruct (required_str _ _) as [e|[|c s]]; [done..|]. by intros [= <-].
Qed.

Lemma field_from_inr fields f : field_from fields = inr f → E164_PATTERN f = true.
Proof.
  unfold field_from.
  destruct (lookup_key "from" fields), (lookup_key "from_" fields);
    try (intros (s & _ & (-> & ?)%validate_e164_inr)%after_inr; done).
  done.
Qed.

Lemma field_to_inr fields t : field_to fields = inr t → E164_PATTERN t = true.
Proof.
  unfold field_to. by intros (s & _ & (-> & ?)%validate_e164_inr)%after_inr.
Qed.

Lemma field_ts_inr fields s :
  field_ts fields = inr s →
  ISO8601_UTC_PATTERN s = true ∧ fromisoformat_ok (replace_Z s) = true.
Proof.
  unfold field_ts.
  by intros (s' & _ & (-> & ?)%validate_iso8601_utc_inr)%after_inr.
Qed.

Lemma field_text_inr fields x s :
  field_text fields = inr x → x = Some s → (String.length s ≤ 4096)%nat.
Proof.
  unfold field_text.
  destruct (lookup_key "text" fields) as [[]|]; try done; try (by intros [= <-]).
  case_bool_decide; [|done]. by intros [= <-] [= <-].
Qed.

(** What [WebhookMessage] accepts obeys the data model. *)
Lemma WebhookMessage_new_valid payload msg :
  WebhookMessage_new payload = Ok msg → valid_message msg.
Proof.
  unfold WebhookMessage_new. destruct payload as [| | | | | |fields]; try done.
  destruct (field_message_id fields) as [|i] eqn:H1;
    destruct (field_from fields) as [|f] eqn:H2;
    destruct (field_to fields) as [|t] eqn:H3;
    destruct (field_ts fields) as [|s] eqn:H4;
    destruct (field_text fields) as [|x] eqn:H5; try done.
  intros [= <-]. unfold valid_message. cbn [message_id from_ to ts text].
  apply field_ts_inr in H4 as [? ?].
  split_and!; [by eapply field_message_id_inr|by eapply field_from_inr|
               by eapply field_to_inr|done|done|].
  intros x0 ->. by eapply field_text_inr.
Qed.

(** X11: [WebhookMessage] returns a message only for a JSON object, and
    the message then obeys every field constraint (non-empty id, E.164
    sender and recipient, a timestamp of the required shape that is a
    date, a text of at most 4096 characters).  Any other payload raises:
    [TypeError] when it is not an object, otherwise a [ValidationError]
    with between one and five entries, never an empty list. *)
Theorem WebhookMessage_new_outcomes payload :
  match WebhookMessage_new payload with
  | Ok msg => (∃ fields, payload = JObj fields) ∧ valid_message msg
  | Raise e =>
      (e = TypeError ∧ ∀ fields, payload ≠ JObj fields) ∨
      (∃ errors fields,
         e = ValidationError errors ∧ payload = JObj fields ∧
         (1 ≤ length errors ≤ 5)%nat)
  end.
Proof.
  destruct (WebhookMessage_new payload) as [msg|e] eqn:Hnew.
  - split; [|by eapply WebhookMessage_new_valid].
    destruct payload; try done. eauto.
  - revert Hnew. unfold WebhookMessage_new.
    destruct payload as [| | | | | |fields];
      try (intros [= <-]; left; by split).
    intros Hnew. right.
    destruct (field_message_id fields) as [|i];
      destruct (field_from fields) as [|f];
      destruct (field_to fields) as [|t];
      destruct (field_ts fields) as [|s];
      destruct (field_text fields) as [|x];
      try done; injection Hnew as <-; eexists _, fields;
      (split_and!; [done|done|simpl; lia|simpl; lia]).
Qed.

End ValidatorFacts.

(** ** GET /messages *)

Section RouteFacts.
Import Storage.

Lemma mapM_Ok {A B} (f : A → result B) l data :
  mapM f l = Ok data → Forall2 (λ x y, f x = Ok y) l data.
Proof.
  revert data. induction l as [|x l IH]; intros data; cbn.
  { intros [= <-]. constructor. }
  destruct (f x) as [y|e] eqn:Hx; [|done]. cbn.
  destruct (mapM f l) as [k|e]; [|done]. cbn. intros [= <-].
  constructor; [done|]. by apply IH.
Qed.

Lemma mapM_Raise {A B} (f : A → result B) l e :
  mapM f l = Raise e → ∃ x, x ∈ l ∧ f x = Raise e.
Proof.
  induction l as [|x l IH]; cbn; [done|].
  destruct (f x) as [y|e'] eqn:Hx; cbn.
  - destruct (mapM f l) as [k|e']; [done|]. cbn. intros [= <-].
    destruct IH as (x' & ? & ?); [done|]. exists x'. split; [by right|done].
  - intros [= <-]. exists x. split; [by left|done].
Qed.

Lemma MessageOut_new_to_dict r :
  Responses.MessageOut_new (to_dict r) =
    match message_id r with
    | Some i =>
        Ok {| Responses.message_id := i;
              Responses.from_ := from_msisdn r;
              Responses.to := to_msisdn r;
              Responses.ts := ts r;
              Responses.text := text r |}
    | None =>
        Raise (ValidationError
                 [Models.error "message_id" "string_type"
                    "Input should be a valid string"])
    end.
Proof. destruct r as [[i|] f t s x c]; reflexivity. Qed.

Lemma page_rows rows limit offset from_filter since q r :
  r ∈ limit_offset limit offset
        (merge_sort order_by
           (filter (λ r, where_clause (conditions from_filter since q) r) rows)) →
  r ∈ rows ∧ satisfies from_filter since q r.
Proof.
  intros Hr. eapply elem_of_sublist in Hr; [|apply limit_offset_sublist].
  rewrite merge_sort_Permutation in Hr.
  apply list_elem_of_filter in Hr as [Hsat Hr].
  split; [done|]. by apply where_clause_satisfies, Is_true_true.
Qed.

(** X12: GET /messages.  The request is refused with 422 exactly when
    [limit] (50 when absent) lies outside 1..100 or [offset] (0 when
    absent) is negative.  Otherwise, for an offset that sqlite3 can bind
    (below 2^63) and a text filter that SQLite's LIKE reads as it is (a
    pattern of at most 50000 bytes, no U+0000 in [q] or in a stored text):
    on a usable store the answer echoes limit and offset, its [total]
    counts the rows that pass the filters, its [data] has
    [min(limit, total - offset)] items, at most 100, each showing a stored
    row that satisfies the filters; and the handler fails (500) only when
    the store is unusable or a selected row has a NULL [message_id], which
    [MessageOut] refuses. *)
Theorem route_get_messages_reply app limit offset from_ since q :
  default 0 offset < 2 ^ 63 →
  pattern_fits q →
  (∀ rows, Main.storage app = Ready rows → like_reads_all q rows) →
  let lim := default 50 limit in
  let off := default 0 offset in
  match Routes.get_messages app limit offset from_ since q with
  | Routes.Rejected422 => ¬ (1 ≤ lim ≤ 100) ∨ off < 0
  | Routes.Returned r =>
      1 ≤ lim ≤ 100 ∧ 0 ≤ off ∧
      Responses.limit r = lim ∧ Responses.offset r = off ∧
      ∃ rows,
        Main.storage app = Ready rows ∧
        Responses.total r =
          count_if (where_clause (conditions from_ since q)) rows ∧
        length (Responses.data r) =
          (Z.to_nat lim `min` (Responses.total r - Z.to_nat off))%nat ∧
        (length (Responses.data r) ≤ 100)%nat ∧
        Forall (λ o, ∃ row, row ∈ rows ∧ satisfies from_ since q row ∧
                            shown_as o row) (Responses.data r)
  | Routes.Raised e =>
      1 ≤ lim ≤ 100 ∧ 0 ≤ off ∧
      ((∃ f, Main.storage app = Broken f ∧ e = fault_exn f) ∨
       (∃ rows row errors,
          Main.storage app = Ready rows ∧ row ∈ rows ∧
          satisfies from_ since q row ∧ message_id row = None ∧
          e = ValidationError errors))
  end.
Proof.
  intros _ _ _. cbv zeta. unfold Routes.get_messages.
  set (lim := default 50 limit). set (off := default 0 offset).
  case_bool_decide as Hlim; cbn [negb orb]; [|by left].
  case_bool_decide as Hoff; cbn [negb]; [|right; lia].
  destruct (Main.storage app) as [fl|rows] eqn:Hdb; cbn [get_messages].
  { split_and!; [lia..|]. left. by exists fl. }
  cbv zeta.
  set (sel := limit_offset lim off _).
  destruct (mapM _ _) as [data|e] eqn:Hmap.
  - apply mapM_Ok in Hmap. cbn [Responses.limit Responses.offset
      Responses.total Responses.data].
    split_and!; [lia..|done|done|]. exists rows.
    assert (length data =
              (Z.to_nat lim `min`
                 (count_if (where_clause (conditions from_ since q)) rows
                  - Z.to_nat off))%nat) as Hlen.
    { rewrite <- (Forall2_length _ _ _ Hmap), length_fmap. unfold sel.
      rewrite limit_offset_length, bool_decide_eq_false_2 by lia.
      by rewrite (Permutation_length (merge_sort_Permutation order_by _)). }
    split_and!; [done..| |].
    + rewrite Hlen. lia.
    + apply Forall2_fmap_l in Hmap. clear Hlen.
      assert (Forall (λ r, r ∈ rows ∧ satisfies from_ since q r) sel) as Hsel.
      { apply Forall_forall. intros r Hr. by eapply page_rows. }
      induction Hmap as [|r o sel' data' Ho _ IH]; [constructor|].
      apply Forall_cons in Hsel as [[Hr Hsat] Hsel].
      constructor; [|by apply IH].
      exists r. split_and!; [done..|].
      cbn in Ho. rewrite MessageOut_new_to_dict in Ho.
      destruct r as [[i|] f t s x c]; [|done].
      injection Ho as <-. by repeat split.
  - apply mapM_Raise in Hmap as (d & (r & -> & Hr)%list_elem_of_fmap & Hd).
    split_and!; [lia..|]. right.
    apply page_rows in Hr as [Hr Hsat].
    rewrite MessageOut_new_to_dict in Hd.
    destruct (message_id r) eqn:Hid; [done|]. injection Hd as <-.
    eexists rows, r, _. by split_and!.
Qed.

(** The second and third of the four sample messages. *)
Lemma route_get_messages_reply_witness :
  let app := {| Main.metrics := Metrics.init; Main.storage := Ready sample_rows |} in
  (default 0 (Some 1) < 2 ^ 63 ∧ pattern_fits None) ∧
  ∃ r, Routes.get_messages app (Some 2) (Some 1) None None None
         = Routes.Returned r ∧
       Responses.total r = 4%nat ∧ length (Responses.data r) = 2%nat.
Proof.
  cbv zeta.
  assert (default 0 (Some 1) < 2 ^ 63) as Hoff by done.
  assert (pattern_fits None) as Hfits by (by intros x).
  split; [by split|].
  pose proof (route_get_messages_reply
                {| Main.metrics := Metrics.init; Main.storage := Ready sample_rows |}
                (Some 2) (Some 1) None None None Hoff Hfits
                ltac:(by intros rows _ x)) as Hreply.
  cbv zeta in Hreply.
  destruct (Routes.get_messages _ _ _ _ _ _) as [|r|e] eqn:Hget; [by vm_compute in Hget| |by vm_compute in Hget].
  exists r. split; [done|].
  destruct Hreply as (_ & _ & _ & _ & rows & [= <-] & Htotal & Hlen & _).
  rewrite Hlen, Htotal. by vm_compute.
Defined.

End RouteFacts.

(** ** Readiness *)

Section ReadinessFacts.
Import Main.
Context `{Library}.

Lemma post_webhook_keeps_readiness settings req env app :
  Storage.is_ready (storage (post_webhook settings req env app).2) =
    Storage.is_ready (storage app).
Proof.
  destruct (webhook_step settings req env app)
    as (result & _ & _ & [[_ Hsame]|(_ & _ & ? & ? & ? & rows & Hrest)]);
    unfold post_webhook, logging_middleware;
    destruct (webhook settings req env app) as [response app'];
    cbn [fst snd storage] in *.
  - by rewrite Hsame.
  - destruct Hrest as (_ & _ & _ & _ & _ & _ & -> & _ & ->). done.
Qed.

Lemma post_webhook_503 settings req env app :
  status_code (post_webhook settings req env app).1 = 503 ↔
  Config.is_ready settings = false.
Proof.
  unfold Config.is_ready, post_webhook, logging_middleware, webhook, webhook_try.
  destruct (webhook_secret settings) as [[|c secret]|]; cbn [truthy negb];
    [done| |done].
  destruct (signature_rejected _ _ _) as [[]|e]; [done| |done].
  destruct (parse (Main.body req)) as [msg|[]]; try done.
  destruct (Storage.insert_message _ _ _ _ _ _ _) as [[[? ?]|e] db]; done.
Qed.

(** X13: GET /health/ready answers 200 or 503, and 200 exactly when
    WEBHOOK_SECRET is set to a non-empty value and the store is usable.
    Serving POST /webhook requests never changes that answer.  POST
    /webhook answers 503 exactly when the secret is missing or empty, so an
    instance that reports ready never answers a webhook with 503. *)
Theorem health_ready_and_webhook settings app reqs req env :
  let ready := Routes.health_ready settings in
  (status_code (ready app) = 200 ∨ status_code (ready app) = 503) ∧
  (status_code (ready app) = 200 ↔
     (∃ secret, webhook_secret settings = Some secret ∧ secret ≠ "") ∧
     (∃ rows, storage app = Storage.Ready rows)) ∧
  ready (run_webhooks settings reqs app) = ready app ∧
  (status_code (post_webhook settings req env app).1 = 503 ↔
     ¬ ∃ secret, webhook_secret settings = Some secret ∧ secret ≠ "") ∧
  (status_code (ready app) = 200 →
   status_code (post_webhook settings req env app).1 ≠ 503).
Proof.
  cbv zeta.
  assert (Config.is_ready settings = true ↔
          ∃ secret, webhook_secret settings = Some secret ∧ secret ≠ "")
    as Hready.
  { unfold Config.is_ready.
    destruct (webhook_secret settings) as [[|c secret]|]; cbn; split;
      try done; try (by intros (? & [= <-] & ?)); try (by intros (? & [=] & ?)).
    intros _. by eexists. }
  assert (status_code (Routes.health_ready settings app) = 200 ↔
          Config.is_ready settings = true ∧ Storage.is_ready (storage app) = true)
    as H200.
  { unfold Routes.health_ready.
    destruct (Config.is_ready settings), (Storage.is_ready (storage app));
      cbn; split; try done; by intros []. }
  split_and!.
  - unfold Routes.health_ready.
    destruct (Config.is_ready settings), (Storage.is_ready (storage app));
      cbn; auto.
  - rewrite H200, Hready. apply and_iff_compat_l.
    destruct (storage app) as [fl|rows]; cbn; split; try done.
    + by intros [? ?].
    + intros _. by eexists.
  - assert (Storage.is_ready (storage (run_webhooks settings reqs app)) =
            Storage.is_ready (storage app)) as Hkeep.
    { induction reqs as [|[rq ev] reqs IH] using rev_ind; [done|].
      unfold run_webhooks in *. rewrite foldl_app. cbn [foldl fst snd].
      by rewrite post_webhook_keeps_readiness. }
    unfold Routes.health_ready. by rewrite Hkeep.
  - rewrite post_webhook_503, <- Hready. by destruct (Config.is_ready settings).
  - rewrite H200, post_webhook_503. intros [-> _]. done.
Qed.

End ReadinessFacts.

(** ** The handler on odd bodies, and over a series of requests *)

Section SeriesFacts.
Import Main.
Context `{Library}.

Ltac in_list := first [by left | right; in_list].

(** X14: a request that is correctly signed but whose body is JSON of
    another kind than an object (an array, a string, a number, null) is
    answered 500 "internal server error" and counted as [server_error],
    not 422: unpacking the payload raises [TypeError], which only the
    outer handler catches.  The store is not touched. *)
Theorem post_webhook_non_object settings secret req sig payload env app :
  webhook_secret settings = Some secret → secret ≠ "" →
  x_signature req = Some sig → sig ≠ "" →
  verify_signature (Main.body req) sig secret = Ok true →
  json_loads (Main.body req) = Ok payload →
  (∀ fields, payload ≠ JObj fields) →
  status_code (post_webhook settings req env app).1 = 500 ∧
  content (post_webhook settings req env app).1 =
    detail (JStr "internal server error") ∧
  storage (post_webhook settings req env app).2 = storage app ∧
  Metrics._webhook_requests (metrics (post_webhook settings req env app).2) =
    Metrics.incr "server_error" (Metrics._webhook_requests (metrics app)).
Proof.
  intros Hsecret Hne Hx Hs Hv Hjson Hobj.
  assert (parse (Main.body req) = Raise TypeError) as Hparse.
  { unfold parse. rewrite Hjson. cbn.
    destruct payload; try done. by destruct (Hobj fields). }
  unfold post_webhook, logging_middleware, webhook, webhook_try,
    signature_rejected.
  rewrite Hsecret, Hx, Hv, Hparse.
  destruct secret; [done|]. destruct sig; [done|]. done.
Qed.

Lemma run_webhooks_snoc settings reqs p app :
  run_webhooks settings (reqs ++ [p]) app =
    (post_webhook settings p.1 p.2 (run_webhooks settings reqs app)).2.
Proof. unfold run_webhooks. by rewrite foldl_app. Qed.

Lemma parse_valid body msg : parse body = Ok msg → valid_message msg.
Proof.
  unfold parse. destruct (json_loads body) as [payload|e]; [|done].
  apply WebhookMessage_new_valid.
Qed.

(** One request, seen from the middleware. *)
Lemma post_webhook_step settings req env app :
  ∃ result,
    (status_code (post_webhook settings req env app).1, result) ∈ outcomes ∧
    Metrics._webhook_requests (metrics (post_webhook settings req env app).2) =
      Metrics.incr result (Metrics._webhook_requests (metrics app)) ∧
    Metrics._latency_count (metrics (post_webhook settings req env app).2) =
      S (Metrics._latency_count (metrics app)) ∧
    ((result ≠ "created" ∧
      storage (post_webhook settings req env app).2 = storage app) ∨
     (result = "created" ∧
      ∃ msg rows,
        valid_message msg ∧
        storage app = Storage.Ready rows ∧
        Storage.has_id (Models.message_id msg) rows = false ∧
        storage (post_webhook settings req env app).2 =
          Storage.Ready (rows ++ [row_of msg (utcnow env)]))).
Proof.
  destruct (webhook_step settings req env app) as (result & Hin & Hm & Hstore).
  exists result. unfold post_webhook, logging_middleware.
  destruct (webhook settings req env app) as [response app'].
  cbn [fst snd status_code storage metrics] in *. rewrite Hm.
  split_and!; try done.
  destruct Hstore as [?|(-> & _ & secret & sig & msg & rows & Hrest)]; [by left|].
  right. split; [done|]. exists msg, rows.
  destruct Hrest as (_ & _ & _ & _ & _ & Hparse & ? & ? & ?).
  split_and!; try done. by eapply parse_valid.
Qed.

Lemma pk_unique_snoc rows msg c :
  pk_unique rows → Storage.has_id (Models.message_id msg) rows = false →
  pk_unique (rows ++ [row_of msg c]).
Proof.
  intros Hpk Hid. unfold pk_unique. rewrite omap_app. simpl.
  apply NoDup_app. split; [done|]. split; [|apply NoDup_singleton].
  intros j Hj ->%list_elem_of_singleton.
  apply bool_decide_eq_false in Hid. apply Hid.
  apply list_elem_of_omap in Hj as (r & Hr & Hr').
  apply list_elem_of_fmap. exists r. by rewrite Hr'.
Qed.

(** X15: after any series of POST /webhook requests served by a fresh
    application, the books agree: the table is usable and holds as many
    rows as [webhook_requests_total{result="created"}] shows, no two with
    the same id; the five outcome counters add up to the number of
    requests; and so does the latency observation count. *)
Theorem run_webhooks_accounting settings reqs :
  let app := run_webhooks settings reqs fresh_app in
  let shown := counter (Metrics._webhook_requests (metrics app)) in
  ∃ rows,
    storage app = Storage.Ready rows ∧
    pk_unique rows ∧
    length rows = shown "created" ∧
    (shown "created" + shown "duplicate" + shown "invalid_signature" +
     shown "validation_error" + shown "server_error")%nat = length reqs ∧
    (∀ label, label ∉ ["created"; "duplicate"; "invalid_signature";
                         "validation_error"; "server_error"] →
              shown label = 0%nat) ∧
    Metrics._latency_count (metrics app) = length reqs.
Proof.
  cbv zeta. induction reqs as [|[req env] reqs IH] using rev_ind.
  { exists []. split_and!; try done. constructor. }
  destruct IH as (rows & Hdb & Hpk & Hlen & Hsum & Hother & Hcount).
  rewrite run_webhooks_snoc. cbn [fst snd].
  set (app := run_webhooks settings reqs fresh_app) in *.
  destruct (post_webhook_step settings req env app)
    as (result & Hin & -> & -> & Hstore).
  assert (∃ rows',
            storage (post_webhook settings req env app).2 = Storage.Ready rows' ∧
            pk_unique rows' ∧
            length rows' =
              (length rows + if decide (result = "created") then 1 else 0)%nat)
    as (rows' & Hdb' & Hpk' & Hlen').
  { destruct Hstore as [[Hne ->]|(-> & msg & rows0 & _ & Hdb0 & Hid & ->)].
    - exists rows. rewrite decide_False by done. split_and!; [done..|lia].
    - rewrite Hdb in Hdb0. injection Hdb0 as <-. eexists. split; [done|].
      split; [by apply pk_unique_snoc|]. rewrite length_app. simpl. lia. }
  assert (result ∈ ["created"; "duplicate"; "invalid_signature";
                    "validation_error"; "server_error"]) as Hres.
  { unfold outcomes in Hin.
    repeat (apply elem_of_cons in Hin as [[= _ ->]|Hin]; [in_list|]).
    by apply elem_of_nil in Hin. }
  exists rows'. rewrite !counter_incr, length_app, Hlen', Hlen. cbn [length].
  split_and!; [done|done|done| | |lia].
  - repeat (apply elem_of_cons in Hres as [->|Hres];
            [repeat case_decide; try done; lia|]).
    by apply elem_of_nil in Hres.
  - intros label Hl. rewrite counter_incr, (Hother label Hl).
    rewrite decide_False; [done|]. by intros <-.
Qed.

Lemma run_webhooks_keeps_valid settings reqs app rows :
  storage app = Storage.Ready rows → Forall valid_row rows →
  ∃ rows',
    storage (run_webhooks settings reqs app) = Storage.Ready rows' ∧
    Forall valid_row rows'.
Proof.
  intros Hdb Hvalid. induction reqs as [|[req env] reqs IH] using rev_ind.
  { by exists rows. }
  destruct IH as (rows1 & Hdb1 & Hvalid1).
  rewrite run_webhooks_snoc. cbn [fst snd].
  set (app1 := run_webhooks settings reqs app) in *.
  destruct (post_webhook_step settings req env app1)
    as (result & _ & _ & _ & [[_ ->]|(_ & msg & rows0 & Hmsg & Hdb0 & _ & ->)]).
  - by exists rows1.
  - rewrite Hdb1 in Hdb0. injection Hdb0 as <-. eexists. split; [done|].
    apply Forall_app. split; [done|]. apply Forall_singleton. by exists msg.
Qed.

(** X16: every row that POST /webhook has stored in a fresh application
    obeys the data model: it carries a non-empty [message_id], E.164
    addresses, a timestamp of the required shape that is a date, and a text
    of at most 4096 characters. *)
Theorem run_webhooks_rows_valid settings reqs :
  ∃ rows,
    storage (run_webhooks settings reqs fresh_app) = Storage.Ready rows ∧
    Forall valid_row rows.
Proof. by apply (run_webhooks_keeps_valid settings reqs fresh_app []). Qed.

(** X17: on an application that has only served POST /webhook requests,
    GET /messages does not fail when asked within SQLite's limits (an
    offset below 2^63, a [q] whose LIKE pattern has at most 50000 bytes):
    the handler never raises, with [limit] in 1..100 and [offset] not
    negative it returns, and every item it returns shows a row that obeys
    the data model. *)
Theorem get_messages_after_webhooks settings reqs limit offset from_ since q :
  default 0 offset < 2 ^ 63 →
  pattern_fits q →
  let app := run_webhooks settings reqs fresh_app in
  (∀ e, Routes.get_messages app limit offset from_ since q ≠ Routes.Raised e) ∧
  (1 ≤ default 50 limit ≤ 100 → 0 ≤ default 0 offset →
   ∃ r, Routes.get_messages app limit offset from_ since q = Routes.Returned r ∧
        Forall (λ o, ∃ row, valid_row row ∧ shown_as o row) (Responses.data r)).
Proof.
  intros _ _. cbv zeta.
  destruct (run_webhooks_keeps_valid settings reqs fresh_app [])
    as (rows & Hdb & Hvalid); [done..|].
  unfold Routes.get_messages. rewrite Hdb. cbn [Storage.get_messages]. cbv zeta.
  set (sel := Storage.limit_offset _ _ _).
  assert (Forall valid_row sel) as Hsel.
  { apply Forall_forall. intros r Hr. apply page_rows in Hr as [Hr _].
    revert r Hr. by apply Forall_forall. }
  assert (∃ data,
            mapM Responses.MessageOut_new (Storage.to_dict <$> sel) = Ok data ∧
            Forall (λ o, ∃ row, valid_row row ∧ shown_as o row) data)
    as (data & -> & Hdata).
  { clearbody sel. induction Hsel as [|r sel' Hr _ (data & IH & Hdata)].
    { exists []. by split. }
    cbn. rewrite MessageOut_new_to_dict, IH.
    destruct Hr as (msg & Hmsg & Hr). destruct r as [[i|] f t s x c]; [|done].
    cbn. eexists. split; [done|]. constructor; [|done].
    eexists. split; [by exists msg|]. by repeat split. }
  split.
  - intros e. by destruct (_ || _).
  - intros Hlim Hoff.
    rewrite !bool_decide_eq_true_2 by done. cbn [negb orb]. by eexists.
Qed.

End SeriesFacts.

(** A signed body that the parser reads as an array. *)
Lemma post_webhook_non_object_witness :
  let r := @Main.post_webhook array_library sample_settings
             (signed_request "[]")
             (sample_env "0a1b2c3d" "2025-01-15T10:00:01Z") fresh_app in
  Main.status_code r.1 = 500 ∧
  Main.content r.1 = Main.detail (JStr "internal server error") ∧
  Main.storage r.2 = Main.storage fresh_app ∧
  Metrics._webhook_requests (Main.metrics r.2) =
    Metrics.incr "server_error" (Metrics._webhook_requests (Main.metrics fresh_app)).
Proof.
  apply (@post_webhook_non_object array_library sample_settings "s"
           (signed_request "[]") (hex (encode "s" ++ encode "[]")%list)
           (JList []));
    first [reflexivity | discriminate].
Defined.

(** The default query after one stored message. *)
Lemma get_messages_after_webhooks_witness :
  (default 0 None < 2 ^ 63 ∧ pattern_fits None) ∧
  ∀ e,
    Routes.get_messages
      (@run_webhooks sample_library sample_settings
         [(signed_request "first", sample_env "0a1b2c3d" "2025-01-15T10:00:01Z")]
         fresh_app)
      None None None None None ≠ Routes.Raised e.
Proof.
  assert (default 0 None < 2 ^ 63) as Hoff by done.
  assert (pattern_fits None) as Hfits by (by intros x).
  split; [by split|].
  exact (proj1 (@get_messages_after_webhooks sample_library sample_settings
                  [(signed_request "first",
                    sample_env "0a1b2c3d" "2025-01-15T10:00:01Z")]
                  None None None None None Hoff Hfits)).
Defined.

(** ** The address pattern and the database path *)

Section PatternFacts.
Import Models.

Lemma digits_to_end_spec s :
  digits_to_end s = true ↔
  ∃ ds, all_digits ds = true ∧ (s = ds ∨ s = ds +:+ String newline "").
Proof.
  induction s as [|c s IH]; cbn [digits_to_end].
  { split; [|done]. intros _. exists "". by split; [|left]. }
  destruct (is_digit c) eqn:Hc.
  - rewrite IH. split.
    + intros (ds & Hds & Hs). exists (String c ds). cbn [all_digits].
      rewrite Hc, Hds. split; [done|]. by destruct Hs as [->| ->]; [left|right].
    + intros ([|d ds] & Hds & Hs).
      * destruct Hs as [[=]|[= -> ->]]. by vm_compute in Hc.
      * cbn [all_digits] in Hds. apply andb_true_iff in Hds as [_ Hds].
        exists ds. split; [done|]. by destruct Hs as [[= _ ->]|[= _ ->]]; [left|right].
  - unfold at_end. rewrite orb_true_iff, !bool_decide_eq_true. split.
    + intros [[=]|[= -> ->]]. exists "". split; [done|by right].
    + intros ([|d ds] & Hds & Hs).
      * destruct Hs as [[=]|[= -> ->]]. by right.
      * cbn [all_digits] in Hds. apply andb_true_iff in Hds as [Hd _].
        destruct Hs as [[= -> _]|[= -> _]]; by rewrite Hd in Hc.
Qed.

Lemma validate_e164_spec field_name v :
  validate_e164 field_name v = inr v ↔
  ∃ ds, ds ≠ "" ∧ all_digits ds = true ∧
        (v = "+" +:+ ds ∨ v = "+" +:+ ds +:+ String newline "").
Proof.
  assert (validate_e164 field_name v = inr v ↔ E164_PATTERN v = true) as ->.
  { unfold validate_e164. by destruct (E164_PATTERN v). }
  unfold E164_PATTERN. destruct v as [|c [|d v]]; cbn [match_atoms atom_match].
  - split; [done|]. by intros (ds & _ & _ & [[=]|[=]]).
  - destruct (bool_decide (c = "+"%char)); (split; [done|]).
    + intros ([|d ds] & Hne & _ & Hv); [done|]. by destruct Hv as [[=]|[=]].
    + intros ([|d ds] & Hne & _ & Hv); [done|]. by destruct Hv as [[=]|[=]].
  - case_bool_decide as Hc.
    + subst c. destruct (is_digit d) eqn:Hd.
      * rewrite digits_to_end_spec. split.
        -- intros (ds & Hds & Hv). exists (String d ds). cbn [all_digits].
           rewrite Hd, Hds. split_and!; [done..|].
           by destruct Hv as [->| ->]; [left|right].
        -- intros ([|d' ds] & Hne & Hds & Hv); [done|].
           cbn [all_digits] in Hds. apply andb_true_iff in Hds as [_ Hds].
           exists ds. split; [done|].
           by destruct Hv as [[= _ ->]|[= _ ->]]; [left|right].
      * split; [done|]. intros ([|d' ds] & Hne & Hds & Hv); [done|].
        cbn [all_digits] in Hds. apply andb_true_iff in Hds as [Hd' _].
        destruct Hv as [[= -> _]|[= -> _]]; by rewrite Hd' in Hd.
    + split; [done|]. intros (ds & _ & _ & [[= -> _]|[= -> _]]); done.
Qed.

Lemma str_of_inj l1 l2 :
  latin1 l1 → latin1 l2 → str_of l1 = str_of l2 → l1 = l2.
Proof.
  intros H1. revert l2. induction H1 as [|n l1 Hn _ IH]; intros l2 H2.
  { by destruct H2. }
  destruct H2 as [|m l2 Hm H2]; [done|]. cbn. intros [= Hnm Hl].
  f_equal; [|by apply IH].
  by rewrite <- (N_ascii_embedding n), <- (N_ascii_embedding m), Hnm.
Qed.

Lemma str_of_app l1 l2 : str_of (l1 ++ l2) = str_of l1 +:+ str_of l2.
Proof.
  induction l1 as [|n l1 IH]; [done|].
  change (String (ascii_of_N n) (str_of (l1 ++ l2)) =
          String (ascii_of_N n) (str_of l1 +:+ str_of l2)).
  by rewrite IH.
Qed.

Lemma str_of_surj s : ∃ cps, latin1 cps ∧ str_of cps = s.
Proof.
  induction s as [|c s (cps & Hcps & <-)];
    [exists []; split; [constructor|done]|].
  exists (N_of_ascii c :: cps). split.
  - constructor; [apply N_ascii_bounded|done].
  - cbn. by rewrite ascii_N_embedding.
Qed.

Lemma all_digits_str_of ds :
  latin1 ds → all_digits (str_of ds) = true ↔ Forall digit_0_9 ds.
Proof.
  induction 1 as [|n ds Hn _ IH]; cbn [str_of foldr all_digits].
  { split; [constructor|done]. }
  rewrite andb_true_iff, IH, Forall_cons. unfold is_digit, digit_0_9.
  by rewrite bool_decide_eq_true, N_ascii_embedding.
Qed.

(** X18: for a string whose characters are all code points below U+0100
    (the strings this development models; the decimal digits among these
    code points are 0-9 only), [validate_e164] returns its argument exactly
    when the string is a plus sign and one or more of the digits 0-9,
    optionally followed by one newline character (which [$] lets pass);
    otherwise it raises [ValueError], and it never returns anything but
    its argument.  Digits of other scripts, which the digit class of the
    pattern also matches, lie outside these strings. *)
Theorem validate_e164_accepts field_name cps :
  latin1 cps →
  (validate_e164 field_name (str_of cps) = inr (str_of cps) ↔
   ∃ ds, ds ≠ [] ∧ Forall digit_0_9 ds ∧
         (cps = 43%N :: ds ∨ cps = 43%N :: ds ++ [10%N])) ∧
  (∀ v', validate_e164 field_name (str_of cps) = inr v' → v' = str_of cps) ∧
  (validate_e164 field_name (str_of cps) ≠ inr (str_of cps) →
   ∃ m, validate_e164 field_name (str_of cps) = inl m).
Proof.
  intros Hcps.
  assert (∀ ds, Forall digit_0_9 ds → latin1 ds) as Hlatin.
  { intros ds Hds. eapply Forall_impl; [exact Hds|]. unfold digit_0_9. cbn. lia. }
  split_and!.
  - rewrite validate_e164_spec. split.
    + intros (s & Hne & Hs & Hv).
      destruct (str_of_surj s) as (ds & Hds & <-). exists ds.
      apply all_digits_str_of in Hs; [|done].
      split_and!; [by intros ->|done|].
      destruct Hv as [Hv|Hv]; [left|right]; (apply str_of_inj; [done|..]).
      * by constructor.
      * by rewrite Hv.
      * constructor; [done|]. apply Forall_app. split; [done|]. by repeat constructor.
      * rewrite Hv.
        change (str_of (43%N :: ds ++ [10%N]))
          with (String "+" (str_of (ds ++ [10%N]))).
        by rewrite str_of_app.
    + intros (ds & Hne & Hds & Hv). exists (str_of ds). split_and!.
      * by destruct ds.
      * apply all_digits_str_of; auto.
      * destruct Hv as [->| ->]; [by left|right].
        change (str_of (43%N :: ds ++ [10%N]))
          with (String "+" (str_of (ds ++ [10%N]))).
        by rewrite str_of_app.
  - intros v'. unfold validate_e164. destruct (E164_PATTERN _); [|done].
    by intros [= <-].
  - unfold validate_e164. destruct (E164_PATTERN _); [done|]. by eexists.
Qed.

(** [+14] has the shape, [14] has not. *)
Lemma validate_e164_accepts_witness :
  latin1 [43; 49; 52]%N ∧
  validate_e164 "to" (str_of [43; 49; 52]%N) = inr (str_of [43; 49; 52]%N).
Proof.
  assert (latin1 [43; 49; 52]%N) as Hl by (by repeat constructor).
  split; [done|].
  apply (proj1 (validate_e164_accepts "to" [43; 49; 52]%N Hl)).
  exists [49; 52]%N. split_and!; [done| |by left].
  repeat constructor; unfold digit_0_9; lia.
Defined.

End PatternFacts.

Section ConfigFacts.

Lemma slice_from_app pre s :
  Config.slice_from (String.length pre) (pre +:+ s) = s.
Proof. induction pre as [|c pre IH]; [by destruct s|exact IH]. Qed.

Lemma prefix_of_app pre s : String.prefix pre (pre +:+ s) = true.
Proof.
  induction pre as [|c pre IH]; [by destruct s|].
  change (String c pre +:+ s) with (String c (pre +:+ s)). cbn.
  by destruct (Ascii.ascii_dec c c).
Qed.

Lemma prefix_app pre url :
  String.prefix pre url = true → url = pre +:+ Config.slice_from (String.length pre) url.
Proof.
  revert url. induction pre as [|c pre IH]; intros url; [by destruct url|].
  destruct url as [|d url]; [done|]. cbn.
  destruct (Ascii.ascii_dec c d) as [->|]; [|done]. intros Hp.
  change (String d url = String d (pre +:+ Config.slice_from (String.length pre) url)).
  f_equal. by apply IH.
Qed.

(** X19: [db_path] removes the scheme [sqlite:///] from the front of
    DATABASE_URL, once, and nothing else: a URL that starts with the scheme
    is the scheme followed by the path, a path put behind the scheme comes
    back as it is, and a URL without the scheme is returned unchanged. *)
Theorem db_path_strips_scheme url :
  (∀ p, Config.db_path ("sqlite:///" +:+ p) = p) ∧
  (url = "sqlite:///" +:+ Config.db_path url ∨
   (String.prefix "sqlite:///" url = false ∧ Config.db_path url = url)).
Proof.
  split.
  - intros p. unfold Config.db_path.
    rewrite prefix_of_app.
    apply (slice_from_app "sqlite:///").
  - unfold Config.db_path.
    destruct (String.prefix "sqlite:///" url) eqn:Hp; [left|by right].
    by apply (prefix_app "sqlite:///") in Hp.
Qed.

End ConfigFacts.
